(** * sc/qa/uitest/search_replace/tdf39959.py

    The UI test for tdf#39959 ("Find-and-replace doesn't search all tables
    anymore"), embedded as a program that talks to its collaborators: the
    UI test framework, the UNO bridge and the spreadsheet document.

    The test body is one straight-line method.  Every call that leaves the
    script is an event of its run; what the collaborators answer is not
    fixed by the script, so a run is taken against an arbitrary handler of
    these calls, and the properties of the script are proved for every
    handler.  The application behind the calls is not part of this file of
    the repository; where a property is about what the application does,
    it is stated on the model of module [Calc] below. *)

From Stdlib Require Import ZArith.
From stdpp Require Import base strings list gmap.

Local Open Scope string_scope.
Local Open Scope Z_scope.
Local Open Scope list_scope.

(** ** Values that cross the boundary between script and collaborators *)

(** The UNO objects the framework hands to a test. *)
Inductive object : Type :=
| Component (url : string)            (* a loaded document *)
| Window (path : list string)         (* a UI object, by the ids leading to it *)
| CellRef (tab : Z) (p1 p2 : Z).      (* a cell of a sheet *)

(** What a call returns: [None], a [str], or a UNO object. *)
Inductive value : Type :=
| VNone
| Str (s : string)
| Obj (o : object).

(** An exception, by its text. *)
Inductive exn : Type :=
| Exception (msg : string).

#[global] Instance object_eq_dec : EqDecision object.
Proof. solve_decision. Defined.
#[global] Instance value_eq_dec : EqDecision value.
Proof. solve_decision. Defined.
#[global] Instance exn_eq_dec : EqDecision exn.
Proof. solve_decision. Defined.

(** [com.sun.star.beans.PropertyValue], as far as the test uses it. *)
Record PropertyValue : Type := mkPropertyValue { Name : string; Value : string }.

#[global] Instance PropertyValue_eq_dec : EqDecision PropertyValue.
Proof. solve_decision. Defined.

(** [mkPropertyValues] of libreoffice.uno.propertyvalue turns a dict into
    the tuple of its items as property values; the dict is given by its
    items, in order. *)
Definition mkPropertyValues (vals : list (string * string)) : list PropertyValue :=
  map (fun kv => mkPropertyValue (fst kv) (snd kv)) vals.

(** ** The calls of the script *)

(** The two context managers the test enters with [with]. *)
Inductive context_manager : Type :=
| load_file (url : value)                                   (* self.ui_test.load_file(url) *)
| execute_modeless_dialog_through_command
    (command : string) (close_button : string).             (* self.ui_test.execute_modeless_dialog_through_command *)

(** Everything the module imports or reaches through [self]: the calls of
    lines 18 to 46, and the helpers of lines 8, 9 and 12 that the file
    imports. The positional arguments are kept in the order of the call. *)
Inductive call : Type :=
| get_url_for_data_file (file_name : string)
| enter (cm : context_manager)                               (* __enter__ of a with block *)
| exit (cm : context_manager)                                (* __exit__ of a with block *)
| getTopFocusWindow                                          (* self.xUITest.getTopFocusWindow() *)
| getChild (self : value) (id : string)
| executeAction (self : value) (action : string) (params : list PropertyValue)
| get_cell_by_position (document : value) (a1 a2 a3 : Z)
| getString (self : value)
| executeCommand (command : string)                          (* self.xUITest.executeCommand *)
| select_pos (self : value) (pos : string)
| enter_text_to_cell (gridwin : value) (cell : string) (text : string)
| type_text (self : value) (text : string)
| get_state_as_dict (self : value).

#[global] Instance context_manager_eq_dec : EqDecision context_manager.
Proof. solve_decision. Defined.
#[global] Instance call_eq_dec : EqDecision call.
Proof. solve_decision. Defined.

(** ** Programs *)

(** A test body: a tree of calls, each continued with the value the call
    returned. [AssertEqual] is unittest's [self.assertEqual]; [With] is a
    [with cm as x: body] statement followed by the rest of the block. *)
Inductive prog : Type :=
| Return
| Call (c : call) (k : value -> prog)
| AssertEqual (first second : value) (k : prog)
| With (cm : context_manager) (body : value -> prog) (k : prog).

Declare Scope prog_scope.
Delimit Scope prog_scope with prog.
Bind Scope prog_scope with prog.

Notation "x <- c ;; k" := (Call c (fun x => k))
  (at level 100, c at next level, k at level 200, right associativity) : prog_scope.
Notation "c ;; k" := (Call c (fun _ => k))
  (at level 100, k at level 200, right associativity) : prog_scope.
Notation "'assertEqual' a b ;; k" := (AssertEqual a b k)
  (at level 100, a at level 9, b at level 9, k at level 200, right associativity) : prog_scope.
Notation "'with_' cm 'as' x 'in' body 'end_with' ;; k" := (With cm (fun x => body) k)
  (at level 100, cm at next level, x name, body at level 200, k at level 200,
   right associativity) : prog_scope.

(** ** The test *)

(** Class [tdf39959], method [test_tdf39959_find_replace_all_sheets]
    (lines 17 to 46). *)
Definition test_tdf39959_find_replace_all_sheets : prog :=
  (url <- get_url_for_data_file "tdf39959.ods" ;;
   with_ load_file url as calc_doc in
     xCalcDoc <- getTopFocusWindow ;;
     gridwin <- getChild xCalcDoc "grid_window" ;;
     with_ execute_modeless_dialog_through_command ".uno:SearchDialog" "close" as xDialog in
       searchterm <- getChild xDialog "searchterm" ;;
       executeAction searchterm "TYPE" (mkPropertyValues [("KEYCODE", "CTRL+A")]) ;;
       executeAction searchterm "TYPE" (mkPropertyValues [("KEYCODE", "BACKSPACE")]) ;;
       executeAction searchterm "TYPE" (mkPropertyValues [("TEXT", "asdf")]) ;;
       replaceterm <- getChild xDialog "replaceterm" ;;
       executeAction replaceterm "TYPE" (mkPropertyValues [("TEXT", "bbb")]) ;;
       allsheets <- getChild xDialog "allsheets" ;;
       executeAction allsheets "CLICK" [] ;;
       replaceall <- getChild xDialog "replaceall" ;;
       executeAction replaceall "CLICK" [] ;;
       Return
     end_with ;;
     cell <- get_cell_by_position calc_doc 1 0 0 ;;
     s <- getString cell ;;
     assertEqual s (Str "bbb ") ;;
     cell <- get_cell_by_position calc_doc 1 0 2 ;;
     s <- getString cell ;;
     assertEqual s (Str "abc") ;;
     executeCommand ".uno:Undo" ;;
     cell <- get_cell_by_position calc_doc 1 0 0 ;;
     s <- getString cell ;;
     assertEqual s (Str "asdf ") ;;
     Return
   end_with ;;
   Return)%prog.

(** The two blocks of the method that the properties below speak about:
    the body of the [with] of the dialog (lines 29 to 38), and what follows
    it (lines 42 to 46). [test_blocks] below shows the method is made of
    them. *)
Definition dialog_steps (xDialog : value) : prog :=
  (searchterm <- getChild xDialog "searchterm" ;;
   executeAction searchterm "TYPE" (mkPropertyValues [("KEYCODE", "CTRL+A")]) ;;
   executeAction searchterm "TYPE" (mkPropertyValues [("KEYCODE", "BACKSPACE")]) ;;
   executeAction searchterm "TYPE" (mkPropertyValues [("TEXT", "asdf")]) ;;
   replaceterm <- getChild xDialog "replaceterm" ;;
   executeAction replaceterm "TYPE" (mkPropertyValues [("TEXT", "bbb")]) ;;
   allsheets <- getChild xDialog "allsheets" ;;
   executeAction allsheets "CLICK" [] ;;
   replaceall <- getChild xDialog "replaceall" ;;
   executeAction replaceall "CLICK" [] ;;
   Return)%prog.

Definition checks (calc_doc : value) : prog :=
  (cell <- get_cell_by_position calc_doc 1 0 0 ;;
   s <- getString cell ;;
   assertEqual s (Str "bbb ") ;;
   cell <- get_cell_by_position calc_doc 1 0 2 ;;
   s <- getString cell ;;
   assertEqual s (Str "abc") ;;
   executeCommand ".uno:Undo" ;;
   cell <- get_cell_by_position calc_doc 1 0 0 ;;
   s <- getString cell ;;
   assertEqual s (Str "asdf ") ;;
   Return)%prog.

(** ** Runs *)

(** One step of a run as seen from outside: a call with what came back
    (an exception or a value), or an evaluation of [assertEqual]. *)
Inductive event : Type :=
| Called (c : call) (r : exn + value)
| Asserted (first second : value).

(** How the test method ends: it passed, one of its assertions failed
    ([AssertionError]: first != second), or an exception raised at a call
    came through. unittest reports the last as an error, or as a failure
    when the exception is an [AssertionError]. *)
Inductive outcome : Type :=
| Passed
| Failed (first second : value)
| Errored (e : exn).

#[global] Instance event_eq_dec : EqDecision event.
Proof. solve_decision. Defined.
#[global] Instance outcome_eq_dec : EqDecision outcome.
Proof. solve_decision. Defined.

(** The collaborators: a state [W] of the world outside the script and
    the way it answers a call. The exception the script raises itself
    when it calls a method on a value that has none is put in front of
    them by [method_lookup] below. *)
Definition handler (W : Type) : Type := call -> W -> (exn + value) * W.

Record result (W : Type) : Type :=
  mkResult { trace : list event; verdict : outcome; world : W }.
Arguments mkResult {W} _ _ _.
Arguments trace {W} _.
Arguments verdict {W} _.
Arguments world {W} _.

(** The interpreter. A raised exception ends the run, after the [__exit__]
    of every [with] block it leaves; [__exit__] runs on the normal way out
    too. The context managers of the framework do not swallow exceptions
    (the value [__exit__] returns is not looked at); [assertEqual] compares
    with [==]. *)
Fixpoint run {W : Type} (h : handler W) (p : prog) (w : W) : result W :=
  match p with
  | Return => mkResult [] Passed w
  | Call c k =>
      let (r, w1) := h c w in
      match r with
      | inl e => mkResult [Called c r] (Errored e) w1
      | inr v =>
          let res := run h (k v) w1 in
          mkResult (Called c r :: trace res) (verdict res) (world res)
      end
  | AssertEqual a b k =>
      if decide (a = b)
      then let res := run h k w in
           mkResult (Asserted a b :: trace res) (verdict res) (world res)
      else mkResult [Asserted a b] (Failed a b) w
  | With cm body k =>
      let (r, w1) := h (enter cm) w in
      match r with
      | inl e => mkResult [Called (enter cm) r] (Errored e) w1
      | inr v =>
          let rb := run h (body v) w1 in
          let (x, w2) := h (exit cm) (world rb) in
          match x, verdict rb with
          | inl e, _ =>
              mkResult (Called (enter cm) r :: trace rb ++ [Called (exit cm) x]) (Errored e) w2
          | inr _, Passed =>
              let rk := run h k w2 in
              mkResult (Called (enter cm) r :: trace rb ++ Called (exit cm) x :: trace rk)
                       (verdict rk) (world rk)
          | inr _, o =>
              mkResult (Called (enter cm) r :: trace rb ++ [Called (exit cm) x]) o w2
          end
      end
  end.

(** The runs a program can have, whatever the collaborators are: every
    call may raise or return any value. *)
Inductive exec : prog -> list event -> outcome -> Prop :=
| exec_Return :
    exec Return [] Passed
| exec_Call_raise c k e :
    exec (Call c k) [Called c (inl e)] (Errored e)
| exec_Call_return c k v t o :
    exec (k v) t o ->
    exec (Call c k) (Called c (inr v) :: t) o
| exec_Assert_holds a k t o :
    exec k t o ->
    exec (AssertEqual a a k) (Asserted a a :: t) o
| exec_Assert_fails a b k :
    a <> b ->
    exec (AssertEqual a b k) [Asserted a b] (Failed a b)
| exec_With_enter_raise cm body k e :
    exec (With cm body k) [Called (enter cm) (inl e)] (Errored e)
| exec_With_exit_raise cm body k v tb ob e :
    exec (body v) tb ob ->
    exec (With cm body k)
         (Called (enter cm) (inr v) :: tb ++ [Called (exit cm) (inl e)]) (Errored e)
| exec_With_through cm body k v tb x tk o :
    exec (body v) tb Passed ->
    exec k tk o ->
    exec (With cm body k)
         (Called (enter cm) (inr v) :: tb ++ Called (exit cm) (inr x) :: tk) o
| exec_With_unwind cm body k v tb ob x :
    exec (body v) tb ob ->
    ob <> Passed ->
    exec (With cm body k)
         (Called (enter cm) (inr v) :: tb ++ [Called (exit cm) (inr x)]) ob.

(** ** What is observed of a run *)

(** The cells the script read with [getString], each with the string it
    got, in order. *)
Definition cell_reads (t : list event) : list (value * value) :=
  omap (fun ev => match ev with
                  | Called (getString cell) (inr s) => Some (cell, s)
                  | _ => None
                  end) t.

(** What the collaborators answered, in order. *)
Definition answers (t : list event) : list (exn + value) :=
  omap (fun ev => match ev with
                  | Called _ r => Some r
                  | Asserted _ _ => None
                  end) t.

(** A collaborator raised during the run. *)
Definition raised (t : list event) : Prop :=
  exists c e, In (Called c (inl e)) t.

(** An [assertEqual] of the run compared two different values. *)
Definition refuted (t : list event) : Prop :=
  exists a b, In (Asserted a b) t /\ a <> b.

(** The object [o] was handed out by [getChild] for the id [id]. *)
Definition obtained (id : string) (o : value) (h : list event) : Prop :=
  exists d, In (Called (getChild d id) (inr o)) h.

(** The kinds of action of the test. Leaving a [with] block is none of
    them: [__exit__] also runs when the block is left by an exception. *)
Inductive phase : Type :=
| Load       (* the data file is located and loaded *)
| Drive      (* UI automation: windows, controls, keystrokes, clicks *)
| Inspect    (* a cell of the document is looked up or read *)
| Assert     (* an assertEqual is evaluated *)
| Undo.      (* .uno:Undo is dispatched *)

#[global] Instance phase_eq_dec : EqDecision phase.
Proof. solve_decision. Defined.

Definition phase_of (ev : event) : option phase :=
  match ev with
  | Called (get_url_for_data_file _) _ => Some Load
  | Called (enter (load_file _)) _ => Some Load
  | Called (enter (execute_modeless_dialog_through_command _ _)) _ => Some Drive
  | Called (exit _) _ => None
  | Called getTopFocusWindow _ => Some Drive
  | Called (getChild _ _) _ => Some Drive
  | Called (executeAction _ _ _) _ => Some Drive
  | Called (get_cell_by_position _ _ _ _) _ => Some Inspect
  | Called (getString _) _ => Some Inspect
  | Called (executeCommand cmd) _ =>
      if String.eqb cmd ".uno:Undo" then Some Undo else Some Drive
  | Called (select_pos _ _) _ => Some Drive
  | Called (enter_text_to_cell _ _ _) _ => Some Drive
  | Called (type_text _ _) _ => Some Drive
  | Called (get_state_as_dict _) _ => Some Inspect
  | Asserted _ _ => Some Assert
  end.

Definition phases (t : list event) : list phase := omap phase_of t.

(** The order of the actions of lines 18 to 46. *)
Definition script_phases : list phase :=
  [Load; Load] ++ replicate 13 Drive ++
  [Inspect; Inspect; Assert; Inspect; Inspect; Assert; Undo; Inspect; Inspect; Assert].

(** ** Events justified by what came before them *)

Section Justified.
Variable J : list event -> event -> Prop.

(** Every event of [t], run after the history [h], satisfies [J] with the
    events before it. *)
Fixpoint justified (h t : list event) : Prop :=
  match t with
  | [] => True
  | ev :: t' => J h ev /\ justified (h ++ [ev]) t'
  end.

(** The same, read off the program: whatever a call returns, the next
    event is justified. The rest of a [with] statement only runs after
    its body has passed. *)
Fixpoint safe (p : prog) (h : list event) : Prop :=
  match p with
  | Return => True
  | Call c k =>
      (forall r, J h (Called c r)) /\
      (forall v, safe (k v) (h ++ [Called c (inr v)]))
  | AssertEqual a b k =>
      J h (Asserted a b) /\
      (a = b -> safe k (h ++ [Asserted a b]))
  | With cm body k =>
      (forall r, J h (Called (enter cm) r)) /\
      (forall v, safe (body v) (h ++ [Called (enter cm) (inr v)]) /\
         forall tb x, exec (body v) tb Passed ->
           safe k (h ++ Called (enter cm) (inr v) :: tb ++ [Called (exit cm) (inr x)]))
  end.

End Justified.

(** All calls a program can make satisfy [Q]. *)
Fixpoint calls_satisfy (Q : call -> Prop) (p : prog) : Prop :=
  match p with
  | Return => True
  | Call c k => Q c /\ forall v, calls_satisfy Q (k v)
  | AssertEqual _ _ k => calls_satisfy Q k
  | With cm body k =>
      Q (enter cm) /\ Q (exit cm) /\ (forall v, calls_satisfy Q (body v)) /\ calls_satisfy Q k
  end.

(** A result with one event, or some events, put in front. *)
Definition cons_event {W : Type} (ev : event) (res : result W) : result W :=
  mkResult (ev :: trace res) (verdict res) (world res).

Definition after_events {W : Type} (evs : list event) (res : result W) : result W :=
  mkResult (evs ++ trace res) (verdict res) (world res).

(** ** What the claims say of an event and the events before it *)

(** The history [h] ends with the events [l]. *)
Definition ends_with (h l : list event) : Prop := exists h0, h = h0 ++ l.

(** A keystroke and a typed text, as [executeAction] gets them. *)
Definition keystroke (o : value) (key : string) (r : exn + value) : event :=
  Called (executeAction o "TYPE" [mkPropertyValue "KEYCODE" key]) r.

Definition typing (o : value) (s : string) (r : exn + value) : event :=
  Called (executeAction o "TYPE" [mkPropertyValue "TEXT" s]) r.

Definition click (o : value) (r : exn + value) : event :=
  Called (executeAction o "CLICK" []) r.

(** [.uno:Undo] was dispatched. *)
Definition undone (h : list event) : Prop :=
  exists r, In (Called (executeCommand ".uno:Undo") r) h.

(** A click on the object got as "replaceall" comes after a click, which
    returned, on an object got as "allsheets". *)
Definition click_order (h : list event) (ev : event) : Prop :=
  forall o r, ev = click o r ->
    obtained "replaceall" o h ->
    exists b1 o' x b2, h = b1 ++ click o' (inr x) :: b2 /\ obtained "allsheets" o' b1.

(** "asdf" is typed into the object just got as "searchterm", right after
    CTRL+A and BACKSPACE were sent to it; "bbb" is typed into the object
    just got as "replaceterm", with nothing in between; and the only
    keystrokes of the test are those two. *)
Definition typed_after (h : list event) (ev : event) : Prop :=
  (forall o r, ev = typing o "asdf" r ->
     exists d x y, ends_with h [Called (getChild d "searchterm") (inr o);
                                keystroke o "CTRL+A" (inr x);
                                keystroke o "BACKSPACE" (inr y)]) /\
  (forall o r, ev = typing o "bbb" r ->
     exists d, ends_with h [Called (getChild d "replaceterm") (inr o)]) /\
  (forall o key r, ev = keystroke o key r ->
     exists d,
       (key = "CTRL+A" /\ ends_with h [Called (getChild d "searchterm") (inr o)]) \/
       (key = "BACKSPACE" /\
        exists x, ends_with h [Called (getChild d "searchterm") (inr o);
                               keystroke o "CTRL+A" (inr x)])) /\
  (forall o s r, ev = typing o s r -> s = "asdf" \/ s = "bbb").

(** The calls of the test. The data file is located first and loaded
    next, once, from the url that was returned; one dialog is opened, with
    [.uno:SearchDialog], to be closed with "close"; children are asked for
    by the five ids of the text; none of the helpers of lines 8, 9 and 12
    is called; cells are looked up on sheet 1 only and read with
    [getString] right after; the only command dispatched is [.uno:Undo];
    the only actions are TYPE on an object got as "searchterm" or
    "replaceterm" and CLICK on an object got as "allsheets" or
    "replaceall". What is left at an [__exit__] is said by
    [exit_entered]. *)
Definition script_call (h : list event) (ev : event) : Prop :=
  match ev with
  | Called (get_url_for_data_file n) _ => n = "tdf39959.ods" /\ h = []
  | Called (enter (load_file url)) _ =>
      h = [Called (get_url_for_data_file "tdf39959.ods") (inr url)]
  | Called (enter (execute_modeless_dialog_through_command cmd btn)) _ =>
      cmd = ".uno:SearchDialog" /\ btn = "close" /\
      forall cmd' btn' r,
        ~ In (Called (enter (execute_modeless_dialog_through_command cmd' btn')) r) h
  | Called (exit _) _ => True
  | Called getTopFocusWindow _ => True
  | Called (getChild _ id) _ =>
      In id ["grid_window"; "searchterm"; "replaceterm"; "allsheets"; "replaceall"]
  | Called (select_pos _ _) _ => False
  | Called (enter_text_to_cell _ _ _) _ => False
  | Called (type_text _ _) _ => False
  | Called (get_state_as_dict _) _ => False
  | Called (get_cell_by_position _ tab _ _) _ => tab = 1
  | Called (getString cell) _ =>
      exists d p q, ends_with h [Called (get_cell_by_position d 1 p q) (inr cell)]
  | Called (executeCommand cmd) _ => cmd = ".uno:Undo"
  | Called (executeAction o action params) _ =>
      (action = "TYPE" /\ (obtained "searchterm" o h \/ obtained "replaceterm" o h)) \/
      (action = "CLICK" /\ params = [] /\
       (obtained "allsheets" o h \/ obtained "replaceall" o h))
  | Asserted _ _ => True
  end.

(** An [__exit__] is that of a block the run has entered. *)
Definition exit_entered (h : list event) (ev : event) : Prop :=
  match ev with
  | Called (exit cm) _ => exists v, In (Called (enter cm) (inr v)) h
  | _ => True
  end.

(** An action comes at its place in the order of the script. *)
Definition in_order (h : list event) (ev : event) : Prop :=
  forall ph, phase_of ev = Some ph -> script_phases !! length (phases h) = Some ph.

(** ** The application behind the calls *)

(** Find & Replace, the undo stack, the dialog controls and the cell
    access helpers are code of the office suite and of its UI test
    framework; none of it is in this file of the repository. Module [Calc]
    is a model of that part, as small as the test needs it. *)
Module Calc.

(** Modelled from the spec: the document owned by the application under
    test (section 3), sheets of cells holding strings. A cell is addressed
    by the two coordinates [get_cell_by_position] is given after the sheet
    index, in the order of the call; the helper is not in this file, so
    which of the two is the column is not decided here. *)
Abbreviation sheet := (gmap (Z * Z) string).

(** Modelled from the spec: a text field of the dialog, driven by
    keystrokes (section 6, "dispatches keycode/click actions"): the text
    left and right of the caret, and whether all of it is selected. *)
Record edit : Type :=
  mkEdit { before_caret : string; after_caret : string; all_selected : bool }.

Definition text (e : edit) : string := (before_caret e ++ after_caret e)%string.

Definition empty_edit : edit := mkEdit "" "" false.

Fixpoint remove_last (s : string) : string :=
  match s with
  | EmptyString => EmptyString
  | String c EmptyString => EmptyString
  | String c s' => String c (remove_last s')
  end.

(** Modelled from the spec: a key press. CTRL+A selects the whole text;
    BACKSPACE deletes the selection, or the character left of the caret. *)
Definition press (key : string) (e : edit) : edit :=
  if String.eqb key "CTRL+A" then mkEdit (before_caret e) (after_caret e) true
  else if String.eqb key "BACKSPACE" then
    if all_selected e then empty_edit
    else mkEdit (remove_last (before_caret e)) (after_caret e) false
  else e.

(** Modelled from the spec: typed text replaces the selection, or goes in
    at the caret. *)
Definition type_into (s : string) (e : edit) : edit :=
  if all_selected e then mkEdit s "" false
  else mkEdit (before_caret e ++ s)%string (after_caret e) false.

(** Modelled from the spec: "locating and substituting text" (glossary).
    Every occurrence of [needle] in [s], found from left to right without
    overlap, is replaced by [repl]; [skip] counts the characters of an
    occurrence still to pass over. *)
Fixpoint replace_from (skip : nat) (needle repl s : string) : string :=
  match s with
  | EmptyString => EmptyString
  | String c s' =>
      match skip with
      | S n => replace_from n needle repl s'
      | O =>
          if String.prefix needle s
          then (repl ++ replace_from (String.length needle - 1) needle repl s')%string
          else String c (replace_from 0 needle repl s')
      end
  end.

Definition replace_all (needle repl s : string) : string :=
  match needle with
  | EmptyString => s
  | _ => replace_from 0 needle repl s
  end.

(** The controls of the Find & Replace dialog the test touches. *)
Record search_dialog : Type :=
  mkDialog { searchterm : edit; replaceterm : edit; allsheets : bool }.

(** What Replace All hands to the document: the two terms and the
    all-sheets option, as the controls hold them at the click. *)
Record search_item : Type :=
  mkItem { search_string : string; replace_string : string; all_tables : bool }.

(** Modelled from the spec: the application. [submitted] records every
    Replace All, in order. *)
Record state : Type := mkState {
  files : list (string * list sheet);      (* the data files, by url *)
  document : option (list sheet);          (* the loaded document *)
  active_sheet : nat;
  undo_stack : list (list sheet);
  controls : search_dialog;
  dialog_open : bool;
  submitted : list search_item
}.

Definition with_document (d : option (list sheet)) (u : list (list sheet)) (a : state) : state :=
  mkState (files a) d (active_sheet a) u (controls a) (dialog_open a) (submitted a).

Definition with_controls (c : search_dialog) (a : state) : state :=
  mkState (files a) (document a) (active_sheet a) (undo_stack a) c (dialog_open a) (submitted a).

Definition with_dialog_open (b : bool) (a : state) : state :=
  mkState (files a) (document a) (active_sheet a) (undo_stack a) (controls a) b (submitted a).

Definition with_submitted (s : list search_item) (a : state) : state :=
  mkState (files a) (document a) (active_sheet a) (undo_stack a) (controls a) (dialog_open a) s.

Definition raise (msg : string) (a : state) : (exn + value) * state :=
  (inl (Exception msg), a).

Definition ret (v : value) (a : state) : (exn + value) * state :=
  (inr v, a).

Definition data_url (file_name : string) : string := ("file:///data/" ++ file_name)%string.

Fixpoint find_file (url : string) (fs : list (string * list sheet)) : option (list sheet) :=
  match fs with
  | [] => None
  | (u, wb) :: fs' => if String.eqb u url then Some wb else find_file url fs'
  end.

Definition replace_in_sheet (needle repl : string) (sh : sheet) : sheet :=
  replace_all needle repl <$> sh.

(** Modelled from the spec: Replace All, "optionally across all sheets of
    a multi-sheet workbook" (glossary); without the option, on the active
    sheet only. *)
Definition replace_in_document (it : search_item) (active : nat) (wb : list sheet) : list sheet :=
  if all_tables it
  then replace_in_sheet (search_string it) (replace_string it) <$> wb
  else alter (replace_in_sheet (search_string it) (replace_string it)) active wb.

Definition item_of (c : search_dialog) : search_item :=
  mkItem (text (searchterm c)) (text (replaceterm c)) (allsheets c).

(** Replace All keeps the document as it was on the undo stack. *)
Definition click_replaceall (a : state) : (exn + value) * state :=
  match document a with
  | Some wb =>
      let it := item_of (controls a) in
      ret VNone (with_submitted (submitted a ++ [it])
                  (with_document (Some (replace_in_document it (active_sheet a) wb))
                                 (wb :: undo_stack a) a))
  | None => raise "no document" a
  end.

Definition edit_action (params : list PropertyValue) (e : edit) : option edit :=
  match params with
  | [pv] =>
      if String.eqb (Name pv) "KEYCODE" then Some (press (Value pv) e)
      else if String.eqb (Name pv) "TEXT" then Some (type_into (Value pv) e)
      else None
  | _ => None
  end.

Definition dialog_action (id action : string) (params : list PropertyValue) (a : state)
  : (exn + value) * state :=
  let c := controls a in
  if String.eqb id "searchterm" && String.eqb action "TYPE" then
    match edit_action params (searchterm c) with
    | Some e => ret VNone (with_controls (mkDialog e (replaceterm c) (allsheets c)) a)
    | None => raise "unknown parameters" a
    end
  else if String.eqb id "replaceterm" && String.eqb action "TYPE" then
    match edit_action params (replaceterm c) with
    | Some e => ret VNone (with_controls (mkDialog (searchterm c) e (allsheets c)) a)
    | None => raise "unknown parameters" a
    end
  else if String.eqb id "allsheets" && String.eqb action "CLICK" then
    ret VNone (with_controls (mkDialog (searchterm c) (replaceterm c) (negb (allsheets c))) a)
  else if String.eqb id "replaceall" && String.eqb action "CLICK" then
    click_replaceall a
  else raise "unknown action" a.

Definition dialog_children : list string :=
  ["searchterm"; "replaceterm"; "allsheets"; "replaceall"; "close"].

Definition has_child (path : list string) (id : string) (a : state) : bool :=
  match path with
  | [w] =>
      if String.eqb w "SearchDialog"
      then dialog_open a && existsb (String.eqb id) dialog_children
      else String.eqb w "frame" && String.eqb id "grid_window"
  | _ => false
  end.

(** Modelled from the spec: the three collaborators of section 6 (document
    loading, UI automation, cell inspection) and the dispatch of
    [.uno:Undo]. The helpers the test never calls are not modelled. *)
Definition handle (c : call) (a : state) : (exn + value) * state :=
  match c with
  | get_url_for_data_file n => ret (Str (data_url n)) a
  | enter (load_file (Str url)) =>
      match find_file url (files a) with
      | Some wb => ret (Obj (Component url)) (with_document (Some wb) [] a)
      | None => raise "file not found" a
      end
  | enter (load_file _) => raise "not a url" a
  | exit (load_file _) => ret VNone (with_document None [] a)
  | enter (execute_modeless_dialog_through_command cmd _) =>
      if String.eqb cmd ".uno:SearchDialog" && negb (dialog_open a)
      then match document a with
           | Some _ => ret (Obj (Window ["SearchDialog"])) (with_dialog_open true a)
           | None => raise "Dialog not executed" a
           end
      else raise "Dialog not executed" a
  | exit (execute_modeless_dialog_through_command _ btn) =>
      if dialog_open a && existsb (String.eqb btn) dialog_children
      then ret VNone (with_dialog_open false a)
      else raise "no such button" a
  | getTopFocusWindow =>
      if dialog_open a then ret (Obj (Window ["SearchDialog"])) a
      else match document a with
           | Some _ => ret (Obj (Window ["frame"])) a
           | None => raise "no window" a
           end
  | getChild (Obj (Window path)) id =>
      if has_child path id a then ret (Obj (Window (path ++ [id]))) a
      else raise "no such child" a
  | getChild _ _ => raise "not a UI object" a
  | executeAction (Obj (Window [w; id])) action params =>
      if String.eqb w "SearchDialog" && dialog_open a
      then dialog_action id action params a
      else raise "unknown action" a
  | executeAction _ _ _ => raise "unknown action" a
  | get_cell_by_position (Obj (Component _)) tab p q =>
      match document a with
      | Some wb =>
          match wb !! Z.to_nat tab with
          | Some _ =>
              if 0 <=? tab then ret (Obj (CellRef tab p q)) a
              else raise "IndexOutOfBoundsException" a
          | None => raise "IndexOutOfBoundsException" a
          end
      | None => raise "DisposedException" a
      end
  | get_cell_by_position _ _ _ _ => raise "not a document" a
  | getString (Obj (CellRef tab p q)) =>
      match document a with
      | Some wb =>
          match wb !! Z.to_nat tab with
          | Some sh => ret (Str (default "" (sh !! (p, q)))) a
          | None => raise "IndexOutOfBoundsException" a
          end
      | None => raise "DisposedException" a
      end
  | getString _ => raise "not a cell" a
  | executeCommand cmd =>
      if String.eqb cmd ".uno:Undo"
      then match document a, undo_stack a with
           | Some _, prev :: rest => ret VNone (with_document (Some prev) rest a)
           | _, _ => ret VNone a
           end
      else ret VNone a
  | select_pos _ _ | enter_text_to_cell _ _ _ | type_text _ _ | get_state_as_dict _ =>
      raise "not modelled" a
  end.

(** The application before the test starts: the data file holds
    [fixture], nothing is loaded, the dialog is closed with its controls
    as [ctl]. *)
Definition start (fixture : list sheet) (active : nat) (ctl : search_dialog) : state :=
  mkState [(data_url "tdf39959.ods", fixture)] None active [] ctl false [].

(** Modelled from the spec: what the test needs of the data file
    tdf39959.ods (section 8): on the sheet it inspects, the one of index 1,
    the cell read with (0, 0) holds "asdf " and the cell read with (0, 2)
    holds "abc". The file itself is not in this part of the repository. *)
Definition tdf39959_ods (fixture : list sheet) : Prop :=
  exists sh : sheet,
    fixture !! 1%nat = Some sh /\ sh !! (0, 0) = Some "asdf " /\ sh !! (0, 2) = Some "abc".

(** The controls of a dialog opened for the first time in a session: the
    search field holds what the application put there, the replace field
    is empty, the option is off. *)
Definition first_opened (st : edit) : search_dialog := mkDialog st empty_edit false.

(** The controls after the keystrokes and the click on "allsheets" of
    lines 29 to 36, and the application after the click on "replaceall" of
    line 38, when the test started from [start fixture active ctl]. *)
Definition typed_controls (ctl : search_dialog) : search_dialog :=
  mkDialog (type_into "asdf" (press "BACKSPACE" (press "CTRL+A" (searchterm ctl))))
           (type_into "bbb" (replaceterm ctl))
           (negb (allsheets ctl)).

Definition after_replace_all (fixture : list sheet) (active : nat) (ctl : search_dialog) : state :=
  mkState [(data_url "tdf39959.ods", fixture)]
          (Some (replace_in_document (item_of (typed_controls ctl)) active fixture))
          active [fixture] (typed_controls ctl) false [item_of (typed_controls ctl)].

(** [needle] occurs in [s]. *)
Definition occurs (needle s : string) : Prop :=
  exists a b : string, s = (a ++ needle ++ b)%string.

(** A data file of the right shape, and one that differs from it in what
    the test never looks at. *)
Definition example_sheet : sheet := {[ (0, 0) := "asdf " ; (0, 2) := "abc" ]}.

Definition example_fixture : list sheet := [example_sheet; example_sheet].

Definition other_fixture : list sheet :=
  [ {[ (3, 3) := "asdf" ]} ; <[ (5, 5) := "zzz" ]> example_sheet ; ∅ ].

End Calc.

(** The events of the dialog block when every call returns as the
    application of [Calc] answers it. *)
Definition dialog_events : list event :=
  let dialog := Obj (Window ["SearchDialog"]) in
  let child id := Obj (Window ["SearchDialog"; id]) in
  [ Called (getChild dialog "searchterm") (inr (child "searchterm"));
    keystroke (child "searchterm") "CTRL+A" (inr VNone);
    keystroke (child "searchterm") "BACKSPACE" (inr VNone);
    typing (child "searchterm") "asdf" (inr VNone);
    Called (getChild dialog "replaceterm") (inr (child "replaceterm"));
    typing (child "replaceterm") "bbb" (inr VNone);
    Called (getChild dialog "allsheets") (inr (child "allsheets"));
    click (child "allsheets") (inr VNone);
    Called (getChild dialog "replaceall") (inr (child "replaceall"));
    click (child "replaceall") (inr VNone) ].

(** The events of a run of [Calc] up to the first cell lookup. *)
Definition opening_events : list event :=
  let url := Str (Calc.data_url "tdf39959.ods") in
  [ Called (get_url_for_data_file "tdf39959.ods") (inr url);
    Called (enter (load_file url)) (inr (Obj (Component (Calc.data_url "tdf39959.ods"))));
    Called getTopFocusWindow (inr (Obj (Window ["frame"])));
    Called (getChild (Obj (Window ["frame"])) "grid_window")
           (inr (Obj (Window ["frame"; "grid_window"])));
    Called (enter (execute_modeless_dialog_through_command ".uno:SearchDialog" "close"))
           (inr (Obj (Window ["SearchDialog"]))) ]
  ++ dialog_events ++
  [ Called (exit (execute_modeless_dialog_through_command ".uno:SearchDialog" "close"))
           (inr VNone) ].

(** Sessions to try the properties on: the data file of the right shape,
    its first sheet active, the dialog opened for the first time with the
    text of a cell in its search field; one that differs in what the test
    does not look at; and one in which the replace field still holds a
    text. *)
Definition example_start : Calc.state :=
  Calc.start Calc.example_fixture 0 (Calc.first_opened (Calc.mkEdit "asdf " "" false)).

Definition other_start : Calc.state :=
  Calc.start Calc.other_fixture 2 (Calc.first_opened (Calc.mkEdit "" "zzz" false)).

Definition used_start : Calc.state :=
  Calc.start Calc.example_fixture 0
             (Calc.mkDialog (Calc.mkEdit "asdf " "" false) (Calc.mkEdit "x" "" false) false).

Definition example_run : result Calc.state :=
  run Calc.handle test_tdf39959_find_replace_all_sheets example_start.

(** The calls of the checks of lines 42 to 46. *)
Definition inspects (c : call) : Prop :=
  match c with
  | get_cell_by_position _ _ _ _ | getString _ | executeCommand _ => True
  | _ => False
  end.

(** The events of the checks when every call returns and every assertion
    holds. *)
Definition checks_events : list event :=
  let doc := Obj (Component (Calc.data_url "tdf39959.ods")) in
  [ Called (get_cell_by_position doc 1 0 0) (inr (Obj (CellRef 1 0 0)));
    Called (getString (Obj (CellRef 1 0 0))) (inr (Str "bbb "));
    Asserted (Str "bbb ") (Str "bbb ");
    Called (get_cell_by_position doc 1 0 2) (inr (Obj (CellRef 1 0 2)));
    Called (getString (Obj (CellRef 1 0 2))) (inr (Str "abc"));
    Asserted (Str "abc") (Str "abc");
    Called (executeCommand ".uno:Undo") (inr VNone);
    Called (get_cell_by_position doc 1 0 0) (inr (Obj (CellRef 1 0 0)));
    Called (getString (Obj (CellRef 1 0 0))) (inr (Str "asdf "));
    Asserted (Str "asdf ") (Str "asdf ") ].

(** The calls by which the application of [Calc] can change the loaded
    document: loading and closing it, [.uno:Undo], and the click on
    "replaceall". *)
Definition changes_document (c : call) : Prop :=
  match c with
  | enter (load_file _) | exit (load_file _) => True
  | executeCommand cmd => cmd = ".uno:Undo"
  | executeAction (Obj (Window [_; id])) action _ => id = "replaceall" /\ action = "CLICK"
  | _ => False
  end.

(** The calls that change the loaded document of [Calc], as the script
    makes them: [.uno:Undo], the click on the control "replaceall" of a
    window, and loading and closing the document. *)
Definition mutation (c : call) : Prop :=
  c = executeCommand ".uno:Undo" \/
  (exists w, c = executeAction (Obj (Window [w; "replaceall"])) "CLICK" []) \/
  (exists url, c = enter (load_file url) \/ c = exit (load_file url)).

(** ** Further observations of a run *)

(** How often the block of [cm] was entered ([__enter__] returned) and
    left ([__exit__] was called) in [t]. *)
Definition entered (cm : context_manager) (t : list event) : nat :=
  length (List.filter (fun ev => match ev with
                                 | Called (enter cm') (inr _) => bool_decide (cm' = cm)
                                 | _ => false
                                 end) t).

Definition exited (cm : context_manager) (t : list event) : nat :=
  length (List.filter (fun ev => match ev with
                                 | Called (exit cm') _ => bool_decide (cm' = cm)
                                 | _ => false
                                 end) t).

(** The call [c] returned [v] in [h]. *)
Definition returned (c : call) (v : value) (h : list event) : Prop :=
  In (Called c (inr v)) h.

(** The actions of lines 30 to 38: the id under which the object was got,
    the action and its parameters. *)
Definition script_actions : list (string * string * list PropertyValue) :=
  [ ("searchterm", "TYPE", mkPropertyValues [("KEYCODE", "CTRL+A")]);
    ("searchterm", "TYPE", mkPropertyValues [("KEYCODE", "BACKSPACE")]);
    ("searchterm", "TYPE", mkPropertyValues [("TEXT", "asdf")]);
    ("replaceterm", "TYPE", mkPropertyValues [("TEXT", "bbb")]);
    ("allsheets", "CLICK", []);
    ("replaceall", "CLICK", []) ].

(** Every object the script passes on is one it was handed before: the
    url of [load_file] by [get_url_for_data_file], the window asked for
    "grid_window" by [getTopFocusWindow], the dialog asked for its four
    controls by the [with] of line 28, the object of an action by
    [getChild], the document of a cell lookup by the [with] of line 18. *)
Definition handed_on (h : list event) (ev : event) : Prop :=
  match ev with
  | Called (enter (load_file url)) _ =>
      returned (get_url_for_data_file "tdf39959.ods") url h
  | Called (enter (execute_modeless_dialog_through_command cmd btn)) _ =>
      cmd = ".uno:SearchDialog" /\ btn = "close"
  | Called (getChild d id) _ =>
      (id = "grid_window" /\ returned getTopFocusWindow d h) \/
      (In id ["searchterm"; "replaceterm"; "allsheets"; "replaceall"] /\
       returned (enter (execute_modeless_dialog_through_command ".uno:SearchDialog" "close"))
                d h)
  | Called (executeAction o action params) _ =>
      exists d id, returned (getChild d id) o h /\ In (id, action, params) script_actions
  | Called (get_cell_by_position d _ _ _) _ =>
      exists url, returned (enter (load_file url)) d h
  | Called (getString cell) _ =>
      exists d tab p q, returned (get_cell_by_position d tab p q) cell h
  | _ => True
  end.

(** No call of the program is an [__enter__] or an [__exit__]: blocks are
    entered and left by [with] statements only. *)
Fixpoint blocks_by_with (p : prog) : Prop :=
  match p with
  | Return => True
  | Call c k =>
      match c with enter _ | exit _ => False | _ => True end /\
      forall v, blocks_by_with (k v)
  | AssertEqual _ _ k => blocks_by_with k
  | With _ body k => (forall v, blocks_by_with (body v)) /\ blocks_by_with k
  end.

(** The cells the script looked up, each with the document and the three
    numbers [get_cell_by_position] was given and the cell it returned. *)
Definition cell_lookups (t : list event) : list (value * (Z * Z * Z) * value) :=
  omap (fun ev => match ev with
                  | Called (get_cell_by_position d a1 a2 a3) (inr cell) =>
                      Some (d, (a1, a2, a3), cell)
                  | _ => None
                  end) t.

(** The context manager of line 28. *)
Definition find_replace_dialog : context_manager :=
  execute_modeless_dialog_through_command ".uno:SearchDialog" "close".

(** Where the statements stand (the indentation of lines 18 to 46): an
    action is sent while the block of the dialog is open; a cell is looked
    up or read, and a command dispatched, after that block was left with
    its [__exit__] returning and before the block of the document is
    left. *)
Definition in_scope (h : list event) (ev : event) : Prop :=
  match ev with
  | Called (executeAction _ _ _) _ =>
      entered find_replace_dialog h = 1%nat /\ exited find_replace_dialog h = 0%nat
  | Called (get_cell_by_position _ _ _ _) _
  | Called (getString _) _
  | Called (executeCommand _) _ =>
      (exists x, In (Called (exit find_replace_dialog) (inr x)) h) /\
      (forall u r, ~ In (Called (exit (load_file u)) r) h)
  | _ => True
  end.

(** A call is not the [__enter__] of a [load_file]. *)
Definition loads_nothing (c : call) : Prop :=
  match c with
  | enter (load_file _) => False
  | _ => True
  end.

(** ** What Python does before a method call reaches its object *)

(** The object a method is called on, with the name of the method: the
    script writes [xCalcDoc.getChild(...)], [searchterm.executeAction(...)]
    and [get_cell_by_position(...).getString()]. The other calls are
    functions, or methods of the test case itself. *)
Definition receiver (c : call) : option (value * string) :=
  match c with
  | getChild o _ => Some (o, "getChild")
  | executeAction o _ _ => Some (o, "executeAction")
  | getString o => Some (o, "getString")
  | _ => None
  end.

Definition type_name (v : value) : string :=
  match v with
  | VNone => "NoneType"
  | Str _ => "str"
  | Obj _ => "pyuno"
  end.

(** [AttributeError]: neither [None] nor a [str] has one of the three
    methods. *)
Definition AttributeError (v : value) (method : string) : exn :=
  Exception ("AttributeError: '" ++ type_name v ++ "' object has no attribute '"
             ++ method ++ "'").

(** The exception the script raises itself at a call, if any: a method
    looked up on a value that is no object. The call then reaches no
    collaborator. *)
Definition script_error (c : call) : option exn :=
  match receiver c with
  | Some (Obj _, _) | None => None
  | Some (v, method) => Some (AttributeError v method)
  end.

(** The collaborators [h] behind Python's method lookup. *)
Definition method_lookup {W : Type} (h : handler W) : handler W :=
  fun c w =>
    match script_error c with
    | Some e => (inl e, w)
    | None => h c w
    end.

(** An event of a call at which the script raises is that exception. *)
Definition raised_by_script (ev : event) : Prop :=
  match ev with
  | Called c r => forall e, script_error c = Some e -> r = inl e
  | Asserted _ _ => True
  end.

(** The run inspected the cells of [l] and no other, in this order: each
    was looked up in the document [d] with its three numbers, and read
    with [getString], which returned the string. *)
Definition inspected (d : value) (l : list ((Z * Z * Z) * value * value))
    (t : list event) : Prop :=
  cell_lookups t = (fun x => (d, x.1.1, x.1.2)) <$> l /\
  cell_reads t = (fun x => (x.1.2, x.2)) <$> l.

(** How the test ends when no call raises: on the first of the three
    strings read that is not the expected one, without reading the next;
    it passes when all three are as expected, the third one read after
    [.uno:Undo]. *)
Definition ends_by_checks (d : value) (t : list event) (o : outcome) : Prop :=
  (exists c1 s1,
     inspected d [((1, 0, 0), c1, s1)] t /\
     s1 <> Str "bbb " /\ o = Failed s1 (Str "bbb ") /\ ~ undone t) \/
  (exists c1 c2 s2,
     inspected d [((1, 0, 0), c1, Str "bbb "); ((1, 0, 2), c2, s2)] t /\
     s2 <> Str "abc" /\ o = Failed s2 (Str "abc") /\ ~ undone t) \/
  (exists c1 c2 c3 s3,
     inspected d [((1, 0, 0), c1, Str "bbb "); ((1, 0, 2), c2, Str "abc");
                  ((1, 0, 0), c3, s3)] t /\
     undone t /\
     ((s3 = Str "asdf " /\ o = Passed) \/
      (s3 <> Str "asdf " /\ o = Failed s3 (Str "asdf ")))).

(** The application of [Calc], except that no window has the focus:
    [getTopFocusWindow] returns [None]. *)
Definition no_window : handler Calc.state :=
  fun c a =>
    match c with
    | getTopFocusWindow => (inr VNone, a)
    | _ => Calc.handle c a
    end.

(** The application of [Calc], except that closing the document raises. *)
Definition closing_fails : handler Calc.state :=
  fun c a =>
    match c with
    | exit (load_file _) => (inl (Exception "close"), a)
    | _ => Calc.handle c a
    end.

(** A session on a data file with two empty sheets. *)
Definition empty_start : Calc.state :=
  Calc.start [∅; ∅] 0 (Calc.first_opened Calc.empty_edit).

(** ** The statements of the script *)

(** A call as the script writes it: its literal arguments, with [None]
    in place of every object that came from an earlier call. *)
Definition written (c : call) : call :=
  match c with
  | get_url_for_data_file n => get_url_for_data_file n
  | enter (load_file _) => enter (load_file VNone)
  | enter (execute_modeless_dialog_through_command cmd btn) =>
      enter (execute_modeless_dialog_through_command cmd btn)
  | exit (load_file _) => exit (load_file VNone)
  | exit (execute_modeless_dialog_through_command cmd btn) =>
      exit (execute_modeless_dialog_through_command cmd btn)
  | getTopFocusWindow => getTopFocusWindow
  | getChild _ id => getChild VNone id
  | executeAction _ action params => executeAction VNone action params
  | get_cell_by_position _ a1 a2 a3 => get_cell_by_position VNone a1 a2 a3
  | getString _ => getString VNone
  | executeCommand cmd => executeCommand cmd
  | select_pos _ pos => select_pos VNone pos
  | enter_text_to_cell _ cell text => enter_text_to_cell VNone cell text
  | type_text _ text => type_text VNone text
  | get_state_as_dict _ => get_state_as_dict VNone
  end.

(** The statement an event is the execution of: a call as written, or an
    [assertEqual] with its expected value. Leaving a [with] block is no
    statement. *)
Definition statement_of (ev : event) : option (call + value) :=
  match ev with
  | Called (exit _) _ => None
  | Called c _ => Some (inl (written c))
  | Asserted _ expected => Some (inr expected)
  end.

Definition statements (t : list event) : list (call + value) := omap statement_of t.

(** The statements of lines 18 to 46, in the order of the text. *)
Definition script_statements : list (call + value) :=
  [ inl (get_url_for_data_file "tdf39959.ods");
    inl (enter (load_file VNone));
    inl getTopFocusWindow;
    inl (getChild VNone "grid_window");
    inl (enter (execute_modeless_dialog_through_command ".uno:SearchDialog" "close"));
    inl (getChild VNone "searchterm");
    inl (executeAction VNone "TYPE" (mkPropertyValues [("KEYCODE", "CTRL+A")]));
    inl (executeAction VNone "TYPE" (mkPropertyValues [("KEYCODE", "BACKSPACE")]));
    inl (executeAction VNone "TYPE" (mkPropertyValues [("TEXT", "asdf")]));
    inl (getChild VNone "replaceterm");
    inl (executeAction VNone "TYPE" (mkPropertyValues [("TEXT", "bbb")]));
    inl (getChild VNone "allsheets");
    inl (executeAction VNone "CLICK" []);
    inl (getChild VNone "replaceall");
    inl (executeAction VNone "CLICK" []);
    inl (get_cell_by_position VNone 1 0 0);
    inl (getString VNone);
    inr (Str "bbb ");
    inl (get_cell_by_position VNone 1 0 2);
    inl (getString VNone);
    inr (Str "abc");
    inl (executeCommand ".uno:Undo");
    inl (get_cell_by_position VNone 1 0 0);
    inl (getString VNone);
    inr (Str "asdf ") ].

(** The statement executed after [h] is the next one of the text. *)
Definition next_statement (h : list event) (ev : event) : Prop :=
  forall s, statement_of ev = Some s -> script_statements !! length (statements h) = Some s.

(** ** What is typed into the dialog *)



(** * Properties *)

(** ** The interpreter and the runs *)

(** The method is made of its two blocks. *)
Lemma test_blocks :
  test_tdf39959_find_replace_all_sheets =
  (url <- get_url_for_data_file "tdf39959.ods" ;;
   with_ load_file url as calc_doc in
     xCalcDoc <- getTopFocusWindow ;;
     gridwin <- getChild xCalcDoc "grid_window" ;;
     With (execute_modeless_dialog_through_command ".uno:SearchDialog" "close")
          dialog_steps (checks calc_doc)
   end_with ;;
   Return)%prog.
Proof. reflexivity. Qed.

(** Every run of the interpreter is one of the runs of [exec]. *)
Lemma run_exec {W : Type} (h : handler W) (p : prog) :
  forall w, exec p (trace (run h p w)) (verdict (run h p w)).
Proof.
  induction p as [|c k IH|a b k IH|cm body IHb k IHk]; intros w; simpl.
  - constructor.
  - destruct (h c w) as [[e|v] w1]; simpl.
    + constructor.
    + constructor. apply IH.
  - destruct (decide (a = b)) as [->|Hne]; simpl.
    + constructor. apply IH.
    + constructor. exact Hne.
  - destruct (h (enter cm) w) as [[e|v] w1]; simpl.
    + constructor.
    + specialize (IHb v w1).
      destruct (h (exit cm) (world (run h (body v) w1))) as [[e|x] w2].
      * simpl. eapply exec_With_exit_raise. exact IHb.
      * destruct (verdict (run h (body v) w1)) eqn:Hv; simpl.
        -- apply exec_With_through; [exact IHb | apply IHk].
        -- apply exec_With_unwind; [exact IHb | discriminate].
        -- apply exec_With_unwind; [exact IHb | discriminate].
Qed.

(** The equations of the interpreter along a run that goes on. *)
Lemma run_Call_return {W : Type} (h : handler W) c k w v w1 :
  h c w = (inr v, w1) ->
  run h (Call c k) w = cons_event (Called c (inr v)) (run h (k v) w1).
Proof. intros H. simpl. rewrite H. reflexivity. Qed.

Lemma run_Call_raise {W : Type} (h : handler W) c k w e w1 :
  h c w = (inl e, w1) ->
  run h (Call c k) w = mkResult [Called c (inl e)] (Errored e) w1.
Proof. intros H. simpl. rewrite H. reflexivity. Qed.

Lemma run_Assert_holds {W : Type} (h : handler W) a k w :
  run h (AssertEqual a a k) w = cons_event (Asserted a a) (run h k w).
Proof. simpl. destruct (decide (a = a)); [reflexivity | congruence]. Qed.

Lemma run_Assert_fails {W : Type} (h : handler W) a b k w :
  a <> b ->
  run h (AssertEqual a b k) w = mkResult [Asserted a b] (Failed a b) w.
Proof. intros Hne. simpl. destruct (decide (a = b)); [congruence | reflexivity]. Qed.

Lemma run_With_through {W : Type} (h : handler W) cm body k w v w1 tb w2 x w3 :
  h (enter cm) w = (inr v, w1) ->
  run h (body v) w1 = mkResult tb Passed w2 ->
  h (exit cm) w2 = (inr x, w3) ->
  run h (With cm body k) w =
  after_events (Called (enter cm) (inr v) :: tb ++ [Called (exit cm) (inr x)]) (run h k w3).
Proof.
  intros He Hb Hx. simpl. rewrite He, Hb. simpl. rewrite Hx.
  unfold after_events. simpl. rewrite <- app_assoc. reflexivity.
Qed.

(** A [with] statement at the end of its block, whose [__exit__] returns:
    the run is the run of the body between the two events. *)
Lemma run_With_last {W : Type} (h : handler W) cm body w v w1 x w2 :
  h (enter cm) w = (inr v, w1) ->
  h (exit cm) (world (run h (body v) w1)) = (inr x, w2) ->
  run h (With cm body Return) w =
  mkResult (Called (enter cm) (inr v) :: trace (run h (body v) w1) ++ [Called (exit cm) (inr x)])
           (verdict (run h (body v) w1)) w2.
Proof.
  intros He Hx. simpl. rewrite He, Hx.
  destruct (verdict (run h (body v) w1)); reflexivity.
Qed.

(** What holds of the world before a run and is kept by every call the
    program can make holds after the run. *)
Lemma run_preserves {W : Type} (h : handler W) (Q : call -> Prop) (P : W -> Prop) :
  (forall c w, Q c -> P w -> P (snd (h c w))) ->
  forall p w, calls_satisfy Q p -> P w -> P (world (run h p w)).
Proof.
  intros step. induction p as [|c k IH|a b k IH|cm body IHb k IHk]; intros w Hq Hw; simpl.
  - exact Hw.
  - destruct Hq as [Hc Hk]. specialize (step c w Hc Hw).
    destruct (h c w) as [[e|v] w1]; simpl in *; [exact step | apply IH; auto].
  - destruct (decide (a = b)); simpl; [apply IH; auto | exact Hw].
  - destruct Hq as (He & Hx & Hb & Hk). pose proof (step _ w He Hw) as H1.
    destruct (h (enter cm) w) as [[e|v] w1]; simpl in *; [exact H1|].
    pose proof (IHb v w1 (Hb v) H1) as H2.
    pose proof (step _ _ Hx H2) as H3.
    destruct (h (exit cm) (world (run h (body v) w1))) as [[e|x] w2]; simpl in *; [exact H3|].
    destruct (verdict (run h (body v) w1)); simpl; [apply IHk; auto | exact H3 | exact H3].
Qed.

(** ** Events and their history *)

Section JustifiedFacts.
Variable J : list event -> event -> Prop.
Hypothesis J_exit : forall h cm r, J h (Called (exit cm) r).

Lemma justified_app h t1 t2 :
  justified J h (t1 ++ t2) <-> justified J h t1 /\ justified J (h ++ t1) t2.
Proof.
  revert h. induction t1 as [|ev t1 IH]; intros h; simpl.
  - rewrite app_nil_r. tauto.
  - rewrite IH, <- app_assoc. simpl. tauto.
Qed.

(** A program that is safe has only justified runs. *)
Lemma safe_justified p t o :
  exec p t o -> forall h, safe J p h -> justified J h t.
Proof.
  induction 1 as [ | c k e | c k v t o _ IH | a k t o _ IH | a b k Hne
                 | cm body k e | cm body k v tb ob e _ IHb
                 | cm body k v tb x tk o Hb IHb _ IHk
                 | cm body k v tb ob x _ IHb Hob ]; intros h Hs; simpl in Hs |- *.
  - exact I.
  - split; [apply Hs | exact I].
  - split; [apply Hs | apply IH, Hs].
  - split; [apply Hs | apply IH, Hs; reflexivity].
  - split; [apply Hs | exact I].
  - split; [apply Hs | exact I].
  - destruct Hs as [He Hs]. destruct (Hs v) as [Hbody _].
    split; [apply He|]. apply justified_app. split; [apply IHb, Hbody|].
    simpl. split; [apply J_exit | exact I].
  - destruct Hs as [He Hs]. destruct (Hs v) as [Hbody Hk].
    split; [apply He|]. apply justified_app. split; [apply IHb, Hbody|].
    simpl. split; [apply J_exit|]. apply IHk.
    specialize (Hk tb x Hb). rewrite <- !app_assoc. simpl. exact Hk.
  - destruct Hs as [He Hs]. destruct (Hs v) as [Hbody _].
    split; [apply He|]. apply justified_app. split; [apply IHb, Hbody|].
    simpl. split; [apply J_exit | exact I].
Qed.

Lemma justified_split t before ev after :
  justified J [] t -> t = before ++ ev :: after -> J before ev.
Proof.
  intros Hj ->. apply justified_app in Hj as [_ Hj]. simpl in Hj. apply Hj.
Qed.

(** For the interpreter: every event of a run of a safe program is
    justified by the events before it. *)
Lemma run_justified {W : Type} (h : handler W) (w : W) p before ev after :
  safe J p [] ->
  trace (run h p w) = before ++ ev :: after ->
  J before ev.
Proof.
  intros Hs Ht. eapply justified_split; [|exact Ht].
  eapply safe_justified; [apply run_exec | exact Hs].
Qed.

End JustifiedFacts.

(** ** How a run ends *)

Lemma raised_cons ev t : raised (ev :: t) <-> (exists c e, ev = Called c (inl e)) \/ raised t.
Proof.
  unfold raised. simpl. split.
  - intros (c & e & [H|H]); [left | right]; eauto.
  - intros [(c & e & ->) | (c & e & H)]; eauto.
Qed.

Lemma raised_app t1 t2 : raised (t1 ++ t2) <-> raised t1 \/ raised t2.
Proof.
  unfold raised. split.
  - intros (c & e & H). apply in_app_or in H as [H|H]; [left | right]; eauto.
  - intros [(c & e & H) | (c & e & H)]; exists c, e; apply in_or_app; auto.
Qed.

Lemma refuted_cons ev t :
  refuted (ev :: t) <-> (exists a b, ev = Asserted a b /\ a <> b) \/ refuted t.
Proof.
  unfold refuted. simpl. split.
  - intros (a & b & [H|H] & Hne); [left | right]; eauto.
  - intros [(a & b & -> & Hne) | (a & b & H & Hne)]; eauto 6.
Qed.

Lemma refuted_app t1 t2 : refuted (t1 ++ t2) <-> refuted t1 \/ refuted t2.
Proof.
  unfold refuted. split.
  - intros (a & b & H & Hne). apply in_app_or in H as [H|H]; [left | right]; eauto.
  - intros [(a & b & H & Hne) | (a & b & H & Hne)]; exists a, b; split; auto;
      apply in_or_app; auto.
Qed.

(** The verdict of a run, read off its events: a run passes when no call
    raised and no assertion was refuted; it fails with the one refuted
    assertion when no call raised; it ends in an error when a call raised.
    Programs have no way to raise by themselves and none to catch. *)
Lemma exec_verdict p t o :
  exec p t o ->
  match o with
  | Passed => ~ raised t /\ ~ refuted t
  | Failed a b => In (Asserted a b) t /\ a <> b /\ ~ raised t
  | Errored e => exists c, In (Called c (inl e)) t
  end.
Proof.
  induction 1 as [ | c k e | c k v t o _ IH | a k t o _ IH | a b k Hne
                 | cm body k e | cm body k v tb ob e _ IHb
                 | cm body k v tb x tk o _ IHb _ IHk
                 | cm body k v tb ob x _ IHb Hob ].
  - split; [intros (c & e & []) | intros (a & b & [] & _)].
  - exists c. left. reflexivity.
  - destruct o as [|a b|e].
    + destruct IH as [Hr Hf]. split.
      * rewrite raised_cons. intros [(c' & e & [=]) | H]; auto.
      * rewrite refuted_cons. intros [(a & b & [=] & _) | H]; auto.
    + destruct IH as (Hin & Hne & Hr). repeat split; [right; exact Hin | exact Hne |].
      rewrite raised_cons. intros [(c' & e & [=]) | H]; auto.
    + destruct IH as [c' Hin]. exists c'. right. exact Hin.
  - destruct o as [|a' b'|e].
    + destruct IH as [Hr Hf]. split.
      * rewrite raised_cons. intros [(c' & e & [=]) | H]; auto.
      * rewrite refuted_cons. intros [(a' & b' & [= -> ->] & Hne) | H]; auto.
    + destruct IH as (Hin & Hne & Hr). repeat split; [right; exact Hin | exact Hne |].
      rewrite raised_cons. intros [(c' & e & [=]) | H]; auto.
    + destruct IH as [c' Hin]. exists c'. right. exact Hin.
  - repeat split; [left; reflexivity | exact Hne |].
    intros (c & e & [[=]|[]]).
  - exists (enter cm). left. reflexivity.
  - exists (exit cm). right. apply in_or_app. right. left. reflexivity.
  - destruct IHb as [Hrb Hfb]. destruct o as [|a b|e].
    + destruct IHk as [Hr Hf]. split.
      * rewrite raised_cons, raised_app, raised_cons.
        intros [(c' & e & [=]) | [H | [(c' & e & [=]) | H]]]; auto.
      * rewrite refuted_cons, refuted_app, refuted_cons.
        intros [(a & b & [=] & _) | [H | [(a & b & [=] & _) | H]]]; auto.
    + destruct IHk as (Hin & Hne & Hr). repeat split; [| exact Hne |].
      * right. apply in_or_app. right. right. exact Hin.
      * rewrite raised_cons, raised_app, raised_cons.
        intros [(c' & e & [=]) | [H | [(c' & e & [=]) | H]]]; auto.
    + destruct IHk as [c' Hin]. exists c'. right. apply in_or_app. right. right. exact Hin.
  - destruct ob as [|a b|e]; [congruence | |].
    + destruct IHb as (Hin & Hne & Hr). repeat split; [| exact Hne |].
      * right. apply in_or_app. left. exact Hin.
      * rewrite raised_cons, raised_app, raised_cons.
        intros [(c' & e & [=]) | [H | [(c' & e & [=]) | (c' & e & [])]]]; auto.
    + destruct IHb as [c' Hin]. exists c'. right. apply in_or_app. left. exact Hin.
Qed.

(** ** The answers decide the run *)

Lemma answers_app t1 t2 : answers (t1 ++ t2) = answers t1 ++ answers t2.
Proof. apply omap_app. Qed.

(** Two runs of one program that got the same answers, as far as each
    went, are the same run. *)
Lemma exec_deterministic p t1 o1 :
  exec p t1 o1 ->
  forall t2 o2 l1 l2,
    exec p t2 o2 -> answers t1 ++ l1 = answers t2 ++ l2 ->
    t1 = t2 /\ o1 = o2 /\ l1 = l2.
Proof.
  induction 1 as [ | c k e | c k v t o _ IH | a k t o _ IH | a b k Hne
                 | cm body k e | cm body k v tb ob e _ IHb
                 | cm body k v tb x tk o _ IHb _ IHk
                 | cm body k v tb ob x _ IHb Hob ];
    intros t2 o2 l1 l2 H2 Heq; inversion H2; subst; clear H2;
    repeat (rewrite ?answers_app in Heq; simpl in Heq; rewrite <- ?app_assoc in Heq; simpl in Heq);
    try discriminate; try congruence.
  - auto.
  - injection Heq as -> ->. auto.
  - injection Heq as <- Heq.
    match goal with H : exec _ _ _ |- _ => destruct (IH _ _ _ _ H Heq) as (-> & -> & ->) end.
    auto.
  - match goal with H : exec _ _ _ |- _ => destruct (IH _ _ _ _ H Heq) as (-> & -> & ->) end.
    auto.
  - auto.
  - injection Heq as -> ->. auto.
  - injection Heq as <- Heq.
    match goal with H : exec (body _) _ _ |- _ => destruct (IHb _ _ _ _ H Heq) as (-> & -> & Hl) end.
    injection Hl as -> ->. auto.
  - injection Heq as <- Heq.
    match goal with H : exec (body _) _ _ |- _ => destruct (IHb _ _ _ _ H Heq) as (-> & _ & Hl) end.
    discriminate.
  - injection Heq as <- Heq.
    match goal with H : exec (body _) _ _ |- _ => destruct (IHb _ _ _ _ H Heq) as (-> & _ & Hl) end.
    discriminate.
  - injection Heq as <- Heq.
    match goal with H : exec (body _) _ _ |- _ => destruct (IHb _ _ _ _ H Heq) as (-> & _ & Hl) end.
    discriminate.
  - injection Heq as <- Heq.
    match goal with H : exec (body _) _ _ |- _ => destruct (IHb _ _ _ _ H Heq) as (-> & _ & Hl) end.
    injection Hl as <- Hl.
    match goal with H : exec k _ _ |- _ => destruct (IHk _ _ _ _ H Hl) as (-> & -> & ->) end.
    auto.
  - injection Heq as <- Heq.
    match goal with H : exec (body _) _ _ |- _ => destruct (IHb _ _ _ _ H Heq) as (-> & <- & Hl) end.
    congruence.
  - injection Heq as <- Heq.
    match goal with H : exec (body _) _ _ |- _ => destruct (IHb _ _ _ _ H Heq) as (-> & _ & Hl) end.
    discriminate.
  - injection Heq as <- Heq.
    match goal with H : exec (body _) _ _ |- _ => destruct (IHb _ _ _ _ H Heq) as (-> & -> & Hl) end.
    congruence.
  - injection Heq as <- Heq.
    match goal with H : exec (body _) _ _ |- _ => destruct (IHb _ _ _ _ H Heq) as (-> & -> & Hl) end.
    injection Hl as <- <-. auto.
Qed.

(** ** The script, call by call *)

(** A run that passed went through every statement. *)
Ltac inv_passed :=
  repeat match goal with
  | H : exec Return _ _ |- _ => inversion H; subst; clear H
  | H : exec (Call _ _) _ Passed |- _ => inversion H; subst; clear H
  | H : exec (AssertEqual _ _ _) _ Passed |- _ => inversion H; subst; clear H
  | H : exec (With _ _ _) _ Passed |- _ => inversion H; subst; clear H
  | H : Passed <> Passed |- _ => contradiction H; reflexivity
  end.

(** Walks through a program, leaving to [tac] what is to be shown of each
    event. *)
Ltac walk tac :=
  cbn beta;
  lazymatch goal with
  | |- safe _ Return _ => exact I
  | |- safe _ (Call _ _) _ =>
      split; [ intros ?; tac | intros ?; simpl app; walk tac ]
  | |- safe _ (AssertEqual _ _ _) _ =>
      split; [ tac | intros ?; simpl app; walk tac ]
  | |- safe _ (With _ _ _) _ =>
      split; [ intros ?; tac
             | intros ?; split;
               [ simpl app; walk tac
               | let tb := fresh "tb" in let x := fresh "x" in let Hb := fresh "Hb" in
                 intros tb x Hb; cbn beta in Hb; inv_passed; simpl app; walk tac ] ]
  end.

Ltac not_in_history :=
  match goal with
  | H : In _ _ |- _ => simpl in H; intuition discriminate
  end.

Ltac ends_with_tac :=
  lazymatch goal with
  | |- ends_with ?h ?l => exists (take (length h - length l) h); reflexivity
  end.

Ltac obtained_tac := solve [eexists; simpl; eauto 30].

Lemma test_click_order : safe click_order test_tdf39959_find_replace_all_sheets [].
Proof.
  unfold test_tdf39959_find_replace_all_sheets.
  walk ltac:(first [ exact I
                   | intros ? ? [=]; subst; intros [? Hin]; try not_in_history
                   | idtac ]).
  match goal with |- exists b1 _ _ _, ?h = _ /\ _ => exists (take 12 h) end.
  simpl. eexists _, _, _. split; [reflexivity | obtained_tac].
Qed.

Lemma test_typed_after : safe typed_after test_tdf39959_find_replace_all_sheets [].
Proof.
  unfold test_tdf39959_find_replace_all_sheets.
  walk ltac:(unfold typed_after, typing, keystroke;
             repeat split; intros; try discriminate;
             repeat match goal with H : _ = _ |- _ => injection H as H; subst end;
             try (eexists _, _, _; ends_with_tac);
             try (eexists; ends_with_tac);
             try (eexists; left; split; [reflexivity | ends_with_tac]);
             try (eexists; right; split; [reflexivity | eexists; ends_with_tac]);
             try (left; reflexivity); try (right; reflexivity)).
Qed.

Lemma test_script_call : safe script_call test_tdf39959_find_replace_all_sheets [].
Proof.
  unfold test_tdf39959_find_replace_all_sheets.
  walk ltac:(simpl;
             first [ exact I | reflexivity
                   | split; reflexivity
                   | split; [reflexivity | split; [reflexivity |
                       intros ? ? ? Hin; simpl in Hin; intuition discriminate ]]
                   | solve [simpl; eauto 10]
                   | eexists _, _, _; ends_with_tac
                   | left; split; [reflexivity | left; obtained_tac ]
                   | left; split; [reflexivity | right; obtained_tac ]
                   | right; split; [reflexivity | split; [reflexivity | left; obtained_tac ]]
                   | right; split; [reflexivity | split; [reflexivity | right; obtained_tac ]] ]).
Qed.

Ltac undone_tac :=
  first [ intros [? Hin]; simpl in Hin; intuition discriminate
        | solve [eexists; simpl; eauto 40] ].

Lemma test_in_order : safe in_order test_tdf39959_find_replace_all_sheets [].
Proof.
  unfold test_tdf39959_find_replace_all_sheets.
  walk ltac:(intros ? [= <-]; reflexivity).
Qed.

(** ** The order of the actions *)

Lemma phases_app t1 t2 : phases (t1 ++ t2) = phases t1 ++ phases t2.
Proof. apply omap_app. Qed.

(** Events that come in order make a prefix of the order of the script. *)
Lemma in_order_prefix t :
  forall h,
    justified in_order h t ->
    phases h = take (length (phases h)) script_phases ->
    phases (h ++ t) = take (length (phases (h ++ t))) script_phases.
Proof.
  induction t as [|ev t IH]; intros h Hj Hh.
  - rewrite app_nil_r. exact Hh.
  - destruct Hj as [Hev Hj]. rewrite cons_middle, app_assoc.
    apply IH; [exact Hj|]. rewrite phases_app. unfold phases at 2 4. simpl.
    destruct (phase_of ev) as [ph|] eqn:Hph; simpl.
    + specialize (Hev ph Hph). rewrite length_app. simpl.
      rewrite Nat.add_1_r. erewrite take_S_r by exact Hev. congruence.
    + rewrite !app_nil_r. exact Hh.
Qed.

Lemma exec_in_order t o before ev after ph :
  exec test_tdf39959_find_replace_all_sheets t o ->
  t = before ++ ev :: after ->
  phase_of ev = Some ph ->
  exists rest, script_phases = phases before ++ ph :: rest.
Proof.
  intros He -> Hph.
  assert (Hj : justified in_order [] (before ++ ev :: after)).
  { eapply safe_justified; [ | exact He | exact test_in_order ]. intros ? ? ? ? [=]. }
  apply justified_app in Hj as [Hb Hev]. simpl in Hev. destruct Hev as [Hev _].
  specialize (Hev ph Hph).
  pose proof (in_order_prefix before [] Hb eq_refl) as Hpre. simpl in Hpre.
  exists (drop (S (length (phases before))) script_phases).
  rewrite Hpre at 1. symmetry. apply take_drop_middle. exact Hev.
Qed.

Lemma exec_passed_phases t :
  exec test_tdf39959_find_replace_all_sheets t Passed -> phases t = script_phases.
Proof.
  unfold test_tdf39959_find_replace_all_sheets. intros He. inv_passed. reflexivity.
Qed.

(** A run of a program that starts with a call starts with that call. *)
Lemma run_Call_first {W : Type} (h : handler W) c k w :
  exists r rest, trace (run h (Call c k) w) = Called c r :: rest.
Proof. simpl. destruct (h c w) as [[e|v] w1]; simpl; eauto. Qed.

(** C4: in every run, whatever the collaborators answer, the first call
    asks for the data file tdf39959.ods; every action of the run (loading,
    driving the dialog, inspecting a cell, asserting, undoing; see
    [phase_of]) is preceded by exactly the actions that precede it in
    [script_phases]: loading, then the thirteen steps on the dialog, then
    the two assertions each after its cell lookup and read, then the undo,
    then the last assertion; and a run that passes went through all of
    them. *)
Theorem actions_in_script_order {W : Type} (h : handler W) (w : W) :
  (exists r rest,
     trace (run h test_tdf39959_find_replace_all_sheets w) =
     Called (get_url_for_data_file "tdf39959.ods") r :: rest) /\
  (forall before ev after ph,
     trace (run h test_tdf39959_find_replace_all_sheets w) = before ++ ev :: after ->
     phase_of ev = Some ph ->
     exists rest, script_phases = phases before ++ ph :: rest) /\
  (verdict (run h test_tdf39959_find_replace_all_sheets w) = Passed ->
   phases (trace (run h test_tdf39959_find_replace_all_sheets w)) = script_phases).
Proof.
  split; [|split].
  - apply run_Call_first.
  - intros before ev after ph Ht Hph.
    eapply exec_in_order; [apply (run_exec h _ w) | exact Ht | exact Hph].
  - intros Hv. apply exec_passed_phases. rewrite <- Hv. apply run_exec.
Qed.

(** ** The two clicks *)

(** C5: in every run, a CLICK on the object the dialog gave for
    "replaceall" comes after a CLICK, which returned, on the object it
    gave for "allsheets". *)
Theorem allsheets_clicked_before_replaceall {W : Type} (h : handler W) (w : W)
    (before after : list event) (o : value) (r : exn + value) :
  trace (run h test_tdf39959_find_replace_all_sheets w) = before ++ click o r :: after ->
  obtained "replaceall" o before ->
  exists b1 o' x b2,
    before = b1 ++ click o' (inr x) :: b2 /\ obtained "allsheets" o' b1.
Proof.
  intros Ht Ho.
  exact (run_justified click_order ltac:(intros ? ? ? ? ? [=]) h w _ _ _ _
           test_click_order Ht o r eq_refl Ho).
Qed.

Lemma allsheets_clicked_before_replaceall_witness :
  exists b1 o' x b2,
    take 14 (trace example_run) = b1 ++ click o' (inr x) :: b2 /\ obtained "allsheets" o' b1.
Proof.
  apply (allsheets_clicked_before_replaceall Calc.handle example_start
           (take 14 (trace example_run)) (drop 15 (trace example_run))
           (Obj (Window ["SearchDialog"; "replaceall"])) (inr VNone)).
  - vm_compute. reflexivity.
  - exists (Obj (Window ["SearchDialog"])). vm_compute. tauto.
Defined.

(** ** The application of [Calc] *)

Lemma string_app_cons (c : Ascii.ascii) (s t : string) :
  (String c s ++ t)%string = String c (s ++ t)%string.
Proof. reflexivity. Qed.

Lemma string_app_nil_r (s : string) : (s ++ "")%string = s.
Proof.
  induction s as [|c s IH]; [reflexivity|]. rewrite string_app_cons, IH. reflexivity.
Qed.

(** CTRL+A, BACKSPACE and a text leave the text in the field, whatever
    it held. *)
Lemma cleared_then_typed (s : string) (e : Calc.edit) :
  Calc.type_into s (Calc.press "BACKSPACE" (Calc.press "CTRL+A" e)) = Calc.mkEdit s "" false.
Proof. reflexivity. Qed.

Lemma typed_into_empty (s : string) (e : Calc.edit) :
  Calc.text e = "" -> Calc.text (Calc.type_into s e) = s.
Proof.
  destruct e as [b a sel]. unfold Calc.text, Calc.type_into. simpl. intros He.
  destruct b as [|c b]; [|rewrite string_app_cons in He; discriminate].
  change a with ("" ++ a)%string. rewrite He.
  destruct sel; simpl; apply string_app_nil_r.
Qed.

Lemma item_of_typed (ctl : Calc.search_dialog) :
  Calc.item_of (Calc.typed_controls ctl) =
  Calc.mkItem "asdf" (Calc.text (Calc.type_into "bbb" (Calc.replaceterm ctl)))
              (negb (Calc.allsheets ctl)).
Proof. reflexivity. Qed.

(** The dialog block, run with the dialog open on a document. *)
Lemma run_dialog_steps (fs : list (string * list (gmap (Z * Z) string)))
    (wb : list (gmap (Z * Z) string)) (act : nat) (u : list (list (gmap (Z * Z) string)))
    (ctl : Calc.search_dialog) (sub : list Calc.search_item) :
  run Calc.handle (dialog_steps (Obj (Window ["SearchDialog"])))
      (Calc.mkState fs (Some wb) act u ctl true sub) =
  mkResult dialog_events Passed
    (Calc.mkState fs
       (Some (Calc.replace_in_document (Calc.item_of (Calc.typed_controls ctl)) act wb))
       act (wb :: u) (Calc.typed_controls ctl) true
       (sub ++ [Calc.item_of (Calc.typed_controls ctl)])).
Proof.
  unfold dialog_steps.
  do 10 (erewrite run_Call_return by reflexivity).
  reflexivity.
Qed.

(** A run of the test from [Calc.start]: the calls up to the end of the
    dialog block all return, and the run goes on with the checks of lines
    42 to 46 on the application as Replace All left it. *)
Lemma run_from_start (fixture : list (gmap (Z * Z) string)) (active : nat)
    (ctl : Calc.search_dialog) :
  run Calc.handle test_tdf39959_find_replace_all_sheets (Calc.start fixture active ctl) =
  mkResult
    (opening_events ++
     trace (run Calc.handle (checks (Obj (Component (Calc.data_url "tdf39959.ods"))))
                (Calc.after_replace_all fixture active ctl)) ++
     [Called (exit (load_file (Str (Calc.data_url "tdf39959.ods")))) (inr VNone)])
    (verdict (run Calc.handle (checks (Obj (Component (Calc.data_url "tdf39959.ods"))))
                  (Calc.after_replace_all fixture active ctl)))
    (Calc.with_document None []
       (world (run Calc.handle (checks (Obj (Component (Calc.data_url "tdf39959.ods"))))
                   (Calc.after_replace_all fixture active ctl)))).
Proof.
  rewrite test_blocks.
  erewrite run_Call_return by reflexivity. cbn beta.
  erewrite run_With_last; [ | reflexivity | reflexivity ].
  cbn beta.
  do 2 (erewrite run_Call_return by reflexivity).
  erewrite run_With_through; [ | reflexivity | apply run_dialog_steps | reflexivity ].
  reflexivity.
Qed.

Lemma handle_inspects_submitted (c : call) (a : Calc.state) :
  inspects c -> Calc.submitted (snd (Calc.handle c a)) = Calc.submitted a.
Proof.
  destruct c; try contradiction; intros _; simpl; repeat case_match; reflexivity.
Qed.

Lemma checks_inspect (d : value) : calls_satisfy inspects (checks d).
Proof. simpl. intuition. Qed.

(** The checks do not touch what was handed to Replace All. *)
Lemma submitted_after_checks (d : value) (a : Calc.state) :
  Calc.submitted (world (run Calc.handle (checks d) a)) = Calc.submitted a.
Proof.
  apply (run_preserves Calc.handle inspects (fun w => Calc.submitted w = Calc.submitted a)).
  - intros c w Hc Hw. rewrite handle_inspects_submitted; assumption.
  - apply checks_inspect.
  - reflexivity.
Qed.

Lemma submitted_from_start (fixture : list (gmap (Z * Z) string)) (active : nat)
    (ctl : Calc.search_dialog) :
  Calc.submitted (world (run Calc.handle test_tdf39959_find_replace_all_sheets
                             (Calc.start fixture active ctl))) =
  [Calc.item_of (Calc.typed_controls ctl)].
Proof.
  rewrite run_from_start. cbn [world].
  change (Calc.submitted (Calc.with_document None [] ?a)) with (Calc.submitted a).
  apply submitted_after_checks.
Qed.

(** *** Replace All on the document *)

Lemma prefix_app (n s : string) :
  String.prefix n s = true -> exists b : string, s = (n ++ b)%string.
Proof.
  revert s. induction n as [|a n IH]; intros s H.
  - exists s. reflexivity.
  - destruct s as [|c s]; simpl in H; [discriminate|].
    destruct (Ascii.ascii_dec a c) as [->|]; [|discriminate].
    destruct (IH s H) as [b ->]. exists b. reflexivity.
Qed.

Lemma occurs_tail (needle : string) (c : Ascii.ascii) (s : string) :
  Calc.occurs needle s -> Calc.occurs needle (String c s).
Proof. intros (a & b & ->). exists (String c a), b. reflexivity. Qed.

Lemma replace_from_0 (needle repl : string) (c : Ascii.ascii) (s : string) :
  Calc.replace_from 0 needle repl (String c s) =
  if String.prefix needle (String c s)
  then (repl ++ Calc.replace_from (String.length needle - 1) needle repl s)%string
  else String c (Calc.replace_from 0 needle repl s).
Proof. reflexivity. Qed.

(** A string in which the search term does not occur is left as it is. *)
Lemma replace_all_absent (needle repl s : string) :
  ~ Calc.occurs needle s -> Calc.replace_all needle repl s = s.
Proof.
  unfold Calc.replace_all. destruct needle as [|a n]; [reflexivity|].
  generalize (String a n). clear a n. intros needle.
  induction s as [|c s IH]; intros Hno; [reflexivity|].
  rewrite replace_from_0. destruct (String.prefix needle (String c s)) eqn:Hp.
  - exfalso. apply Hno. destruct (prefix_app _ _ Hp) as [b Hb].
    exists "", b. exact Hb.
  - f_equal. apply IH. intros Ho. apply Hno, occurs_tail, Ho.
Qed.

Lemma replace_in_sheet_lookup (needle repl : string) (sh : gmap (Z * Z) string)
    (pq : Z * Z) (s : string) :
  sh !! pq = Some s ->
  Calc.replace_in_sheet needle repl sh !! pq = Some (Calc.replace_all needle repl s).
Proof. intros Hc. unfold Calc.replace_in_sheet. rewrite lookup_fmap, Hc. reflexivity. Qed.

(** With the option on, every sheet is searched. *)
Lemma replaced_sheet (it : Calc.search_item) (active : nat)
    (wb : list (gmap (Z * Z) string)) (i : nat) (sh : gmap (Z * Z) string) :
  Calc.all_tables it = true -> wb !! i = Some sh ->
  Calc.replace_in_document it active wb !! i =
  Some (Calc.replace_in_sheet (Calc.search_string it) (Calc.replace_string it) sh).
Proof.
  intros Hall Hs. unfold Calc.replace_in_document. rewrite Hall.
  rewrite list_lookup_fmap, Hs. reflexivity.
Qed.

(** Whatever the option, a cell that does not hold the search term keeps
    its content. *)
Lemma replace_in_document_frame (it : Calc.search_item) (active : nat)
    (wb : list (gmap (Z * Z) string)) (i : nat) (sh : gmap (Z * Z) string)
    (pq : Z * Z) (s : string) :
  wb !! i = Some sh -> sh !! pq = Some s -> ~ Calc.occurs (Calc.search_string it) s ->
  exists sh' : gmap (Z * Z) string,
    Calc.replace_in_document it active wb !! i = Some sh' /\ sh' !! pq = Some s.
Proof.
  intros Hs Hc Hno.
  pose proof (replace_in_sheet_lookup (Calc.search_string it) (Calc.replace_string it) _ _ _ Hc)
    as Hr.
  rewrite (replace_all_absent _ _ _ Hno) in Hr.
  unfold Calc.replace_in_document. destruct (Calc.all_tables it).
  - eexists. rewrite list_lookup_fmap, Hs. split; [reflexivity | exact Hr].
  - destruct (decide (active = i)) as [->|Hne].
    + eexists. rewrite list_lookup_alter_eq, Hs. split; [reflexivity | exact Hr].
    + exists sh. rewrite list_lookup_alter_ne by exact Hne. auto.
Qed.

Lemma handle_get_cell (a : Calc.state) (wb : list (gmap (Z * Z) string))
    (sh : gmap (Z * Z) string) (url : string) (tab p q : Z) :
  Calc.document a = Some wb -> wb !! Z.to_nat tab = Some sh -> 0 <= tab ->
  Calc.handle (get_cell_by_position (Obj (Component url)) tab p q) a =
  (inr (Obj (CellRef tab p q)), a).
Proof.
  intros Hd Hs Ht. unfold Calc.handle. rewrite Hd, Hs.
  destruct (Z.leb_spec 0 tab); [reflexivity | lia].
Qed.

Lemma handle_getString (a : Calc.state) (wb : list (gmap (Z * Z) string))
    (sh : gmap (Z * Z) string) (tab p q : Z) (s : string) :
  Calc.document a = Some wb -> wb !! Z.to_nat tab = Some sh -> sh !! (p, q) = Some s ->
  Calc.handle (getString (Obj (CellRef tab p q))) a = (inr (Str s), a).
Proof.
  intros Hd Hs Hc. unfold Calc.handle. rewrite Hd, Hs, Hc. reflexivity.
Qed.

(** Undo after Replace All gives the document back. *)
Lemma undo_replace_all (a : Calc.state) (wb : list (gmap (Z * Z) string)) :
  Calc.document a = Some wb ->
  Calc.document (snd (Calc.handle (executeCommand ".uno:Undo") (snd (Calc.click_replaceall a)))) =
  Some wb /\
  Calc.undo_stack (snd (Calc.handle (executeCommand ".uno:Undo") (snd (Calc.click_replaceall a)))) =
  Calc.undo_stack a.
Proof.
  intros Hd. unfold Calc.click_replaceall. rewrite Hd. split; reflexivity.
Qed.

(** Only Replace All, Undo, loading and closing change the document. *)
Lemma dialog_action_document (id action : string) (params : list PropertyValue)
    (a : Calc.state) :
  Calc.document (snd (Calc.dialog_action id action params a)) <> Calc.document a ->
  id = "replaceall" /\ action = "CLICK".
Proof.
  unfold Calc.dialog_action, Calc.click_replaceall.
  repeat case_match; simpl; try congruence.
  all: intros _.
  all: repeat match goal with H : _ && _ = true |- _ => apply andb_true_iff in H as [? ?] end.
  all: split; apply String.eqb_eq; assumption.
Qed.

Lemma handle_document (c : call) (a : Calc.state) :
  Calc.document (snd (Calc.handle c a)) <> Calc.document a -> changes_document c.
Proof.
  destruct c; simpl; repeat case_match; simpl; subst; try congruence; try exact (fun _ => I).
  - apply dialog_action_document.
  - intros _. apply String.eqb_eq. assumption.
Qed.

(** The checks on the data file, after Replace All with the terms of the
    script and the option on: every call returns and every assertion
    holds. *)
Lemma run_checks (fixture : list (gmap (Z * Z) string)) (active : nat)
    (ctl : Calc.search_dialog) :
  Calc.tdf39959_ods fixture ->
  Calc.text (Calc.replaceterm ctl) = "" ->
  Calc.allsheets ctl = false ->
  run Calc.handle (checks (Obj (Component (Calc.data_url "tdf39959.ods"))))
      (Calc.after_replace_all fixture active ctl) =
  mkResult checks_events Passed
           (Calc.mkState [(Calc.data_url "tdf39959.ods", fixture)] (Some fixture) active []
                         (Calc.typed_controls ctl) false [Calc.mkItem "asdf" "bbb" true]).
Proof.
  intros (sh & Hsh & Ha & Hc) Hrt Hall.
  assert (Hit : Calc.item_of (Calc.typed_controls ctl) = Calc.mkItem "asdf" "bbb" true).
  { rewrite item_of_typed, (typed_into_empty _ _ Hrt), Hall. reflexivity. }
  unfold Calc.after_replace_all. rewrite Hit.
  pose proof (replaced_sheet (Calc.mkItem "asdf" "bbb" true) active fixture 1 sh eq_refl Hsh)
    as Hsh'.
  pose proof (replace_in_sheet_lookup "asdf" "bbb" sh _ _ Ha) as Ha'.
  pose proof (replace_in_sheet_lookup "asdf" "bbb" sh _ _ Hc) as Hc'.
  change (Calc.replace_all "asdf" "bbb" "asdf ") with "bbb " in Ha'.
  change (Calc.replace_all "asdf" "bbb" "abc") with "abc" in Hc'.
  cbn [Calc.search_string Calc.replace_string] in Hsh'.
  unfold checks.
  erewrite run_Call_return
    by (eapply handle_get_cell; [reflexivity | exact Hsh' | lia]).
  erewrite run_Call_return
    by (eapply handle_getString; [reflexivity | exact Hsh' | exact Ha']).
  rewrite run_Assert_holds.
  erewrite run_Call_return
    by (eapply handle_get_cell; [reflexivity | exact Hsh' | lia]).
  erewrite run_Call_return
    by (eapply handle_getString; [reflexivity | exact Hsh' | exact Hc']).
  rewrite run_Assert_holds.
  erewrite run_Call_return by reflexivity.
  erewrite run_Call_return
    by (eapply handle_get_cell; [reflexivity | exact Hsh | lia]).
  erewrite run_Call_return
    by (eapply handle_getString; [reflexivity | exact Hsh | exact Ha]).
  rewrite run_Assert_holds.
  reflexivity.
Qed.

(** The whole run on the data file: the test passes. *)
Lemma run_on_fixture (fixture : list (gmap (Z * Z) string)) (active : nat)
    (ctl : Calc.search_dialog) :
  Calc.tdf39959_ods fixture ->
  Calc.text (Calc.replaceterm ctl) = "" ->
  Calc.allsheets ctl = false ->
  trace (run Calc.handle test_tdf39959_find_replace_all_sheets (Calc.start fixture active ctl)) =
    opening_events ++ checks_events ++
    [Called (exit (load_file (Str (Calc.data_url "tdf39959.ods")))) (inr VNone)] /\
  verdict (run Calc.handle test_tdf39959_find_replace_all_sheets (Calc.start fixture active ctl)) =
    Passed.
Proof.
  intros Hf Hrt Hall. rewrite run_from_start, (run_checks _ _ _ Hf Hrt Hall).
  split; reflexivity.
Qed.

Lemma after_replace_all_searchterm (fixture : list (gmap (Z * Z) string)) (active : nat)
    (st1 st2 rt : Calc.edit) (all : bool) :
  Calc.after_replace_all fixture active (Calc.mkDialog st1 rt all) =
  Calc.after_replace_all fixture active (Calc.mkDialog st2 rt all).
Proof. reflexivity. Qed.

(** ** The cells of the second sheet *)

(** C1: on the application of [Calc], started on a data file that holds
    "asdf " and "abc" in the two inspected cells of sheet 1, with an empty
    replace field and the all-sheets option off, and whichever sheet is
    active: all dialog calls return, the first cell the test reads is the
    one looked up with (1, 0, 0), and it reads "bbb ", trailing space
    kept; that is the cell's content in the document as Replace All left
    it. *)
Theorem replaced_on_second_sheet (fixture : list (gmap (Z * Z) string)) (active : nat)
    (ctl : Calc.search_dialog) :
  Calc.tdf39959_ods fixture ->
  Calc.text (Calc.replaceterm ctl) = "" ->
  Calc.allsheets ctl = false ->
  cell_reads (trace (run Calc.handle test_tdf39959_find_replace_all_sheets
                         (Calc.start fixture active ctl))) !! 0%nat =
    Some (Obj (CellRef 1 0 0), Str "bbb ") /\
  exists (wb : list (gmap (Z * Z) string)) (sh : gmap (Z * Z) string),
    Calc.document (Calc.after_replace_all fixture active ctl) = Some wb /\
    wb !! 1%nat = Some sh /\ sh !! (0, 0) = Some "bbb ".
Proof.
  intros Hf Hrt Hall. split.
  - destruct (run_on_fixture fixture active ctl Hf Hrt Hall) as [-> _]. reflexivity.
  - destruct Hf as (sh & Hsh & Ha & _).
    assert (Hit : Calc.item_of (Calc.typed_controls ctl) = Calc.mkItem "asdf" "bbb" true).
    { rewrite item_of_typed, (typed_into_empty _ _ Hrt), Hall. reflexivity. }
    eexists _, _. split; [reflexivity|]. rewrite Hit. split.
    + exact (replaced_sheet (Calc.mkItem "asdf" "bbb" true) active fixture 1 sh eq_refl Hsh).
    + exact (replace_in_sheet_lookup "asdf" "bbb" sh _ _ Ha).
Qed.

Lemma replaced_on_second_sheet_witness :
  cell_reads (trace example_run) !! 0%nat = Some (Obj (CellRef 1 0 0), Str "bbb ") /\
  exists (wb : list (gmap (Z * Z) string)) (sh : gmap (Z * Z) string),
    Calc.document (Calc.after_replace_all Calc.example_fixture 0
                     (Calc.first_opened (Calc.mkEdit "asdf " "" false))) = Some wb /\
    wb !! 1%nat = Some sh /\ sh !! (0, 0) = Some "bbb ".
Proof.
  apply (replaced_on_second_sheet Calc.example_fixture 0
           (Calc.first_opened (Calc.mkEdit "asdf " "" false))).
  - exists Calc.example_sheet. vm_compute. repeat split; reflexivity.
  - reflexivity.
  - reflexivity.
Defined.

(** C2: on the same application and data file, the second cell the test
    reads is the one looked up with (1, 0, 2), and it still reads "abc";
    and any cell of any sheet whose string does not contain "asdf" holds
    after Replace All what it held before. *)
Theorem other_cell_unchanged (fixture : list (gmap (Z * Z) string)) (active : nat)
    (ctl : Calc.search_dialog) :
  Calc.tdf39959_ods fixture ->
  Calc.text (Calc.replaceterm ctl) = "" ->
  Calc.allsheets ctl = false ->
  cell_reads (trace (run Calc.handle test_tdf39959_find_replace_all_sheets
                         (Calc.start fixture active ctl))) !! 1%nat =
    Some (Obj (CellRef 1 0 2), Str "abc") /\
  forall (tab : nat) (sh : gmap (Z * Z) string) (pq : Z * Z) (s : string),
    fixture !! tab = Some sh -> sh !! pq = Some s -> ~ Calc.occurs "asdf" s ->
    exists (wb : list (gmap (Z * Z) string)) (sh' : gmap (Z * Z) string),
      Calc.document (Calc.after_replace_all fixture active ctl) = Some wb /\
      wb !! tab = Some sh' /\ sh' !! pq = Some s.
Proof.
  intros Hf Hrt Hall. split.
  - destruct (run_on_fixture fixture active ctl Hf Hrt Hall) as [-> _]. reflexivity.
  - intros tab sh pq s Hsh Hc Hno.
    destruct (replace_in_document_frame (Calc.item_of (Calc.typed_controls ctl)) active
                fixture tab sh pq s Hsh Hc Hno) as (sh' & H1 & H2).
    exists (Calc.replace_in_document (Calc.item_of (Calc.typed_controls ctl)) active fixture), sh'.
    split; [reflexivity | split; assumption].
Qed.

Lemma other_cell_unchanged_witness :
  cell_reads (trace example_run) !! 1%nat = Some (Obj (CellRef 1 0 2), Str "abc") /\
  forall (tab : nat) (sh : gmap (Z * Z) string) (pq : Z * Z) (s : string),
    Calc.example_fixture !! tab = Some sh -> sh !! pq = Some s -> ~ Calc.occurs "asdf" s ->
    exists (wb : list (gmap (Z * Z) string)) (sh' : gmap (Z * Z) string),
      Calc.document (Calc.after_replace_all Calc.example_fixture 0
                       (Calc.first_opened (Calc.mkEdit "asdf " "" false))) = Some wb /\
      wb !! tab = Some sh' /\ sh' !! pq = Some s.
Proof.
  apply (other_cell_unchanged Calc.example_fixture 0
           (Calc.first_opened (Calc.mkEdit "asdf " "" false))).
  - exists Calc.example_sheet. vm_compute. repeat split; reflexivity.
  - reflexivity.
  - reflexivity.
Defined.

(** C3: on the same application and data file, the third cell the test
    reads, after it dispatched .uno:Undo, is again the one looked up with
    (1, 0, 0), and it reads "asdf " as before the replacement; the checks
    leave the whole document as the data file had it. *)
Theorem undo_restores_cell (fixture : list (gmap (Z * Z) string)) (active : nat)
    (ctl : Calc.search_dialog) :
  Calc.tdf39959_ods fixture ->
  Calc.text (Calc.replaceterm ctl) = "" ->
  Calc.allsheets ctl = false ->
  cell_reads (trace (run Calc.handle test_tdf39959_find_replace_all_sheets
                         (Calc.start fixture active ctl))) !! 2%nat =
    Some (Obj (CellRef 1 0 0), Str "asdf ") /\
  undone (take 23 (trace (run Calc.handle test_tdf39959_find_replace_all_sheets
                              (Calc.start fixture active ctl)))) /\
  Calc.document
    (world (run Calc.handle (checks (Obj (Component (Calc.data_url "tdf39959.ods"))))
                (Calc.after_replace_all fixture active ctl))) = Some fixture.
Proof.
  intros Hf Hrt Hall. split; [|split].
  - destruct (run_on_fixture fixture active ctl Hf Hrt Hall) as [-> _]. reflexivity.
  - destruct (run_on_fixture fixture active ctl Hf Hrt Hall) as [-> _].
    exists (inr VNone). vm_compute. tauto.
  - rewrite (run_checks _ _ _ Hf Hrt Hall). reflexivity.
Qed.

Lemma undo_restores_cell_witness :
  cell_reads (trace example_run) !! 2%nat = Some (Obj (CellRef 1 0 0), Str "asdf ") /\
  undone (take 23 (trace example_run)) /\
  Calc.document
    (world (run Calc.handle (checks (Obj (Component (Calc.data_url "tdf39959.ods"))))
                (Calc.after_replace_all Calc.example_fixture 0
                   (Calc.first_opened (Calc.mkEdit "asdf " "" false))))) =
  Some Calc.example_fixture.
Proof.
  apply (undo_restores_cell Calc.example_fixture 0
           (Calc.first_opened (Calc.mkEdit "asdf " "" false))).
  - exists Calc.example_sheet. vm_compute. repeat split; reflexivity.
  - reflexivity.
  - reflexivity.
Defined.

(** ** Clearing the search field *)

(** C9: in every run, whatever the collaborators answer, "asdf" is typed
    into the object got as "searchterm" right after CTRL+A and BACKSPACE
    were sent to it, "bbb" is typed into the object got as "replaceterm"
    with nothing sent to it before, and no other key is sent
    ([typed_after]). On the text field of [Calc], the three steps leave
    "asdf" whatever the field held, so the run and the search term handed
    to Replace All do not depend on what the search field held. *)
Theorem searchterm_cleared_before_typing {W : Type} (h : handler W) (w : W) :
  (forall before ev after,
     trace (run h test_tdf39959_find_replace_all_sheets w) = before ++ ev :: after ->
     typed_after before ev) /\
  (forall (s : string) (e : Calc.edit),
     Calc.text (Calc.type_into s (Calc.press "BACKSPACE" (Calc.press "CTRL+A" e))) = s) /\
  (forall (fixture : list (gmap (Z * Z) string)) (active : nat) (st1 st2 rt : Calc.edit)
          (all : bool),
     run Calc.handle test_tdf39959_find_replace_all_sheets
         (Calc.start fixture active (Calc.mkDialog st1 rt all)) =
     run Calc.handle test_tdf39959_find_replace_all_sheets
         (Calc.start fixture active (Calc.mkDialog st2 rt all))) /\
  (forall (fixture : list (gmap (Z * Z) string)) (active : nat) (ctl : Calc.search_dialog),
     Calc.search_string <$>
       Calc.submitted (world (run Calc.handle test_tdf39959_find_replace_all_sheets
                                  (Calc.start fixture active ctl))) = ["asdf"]).
Proof.
  split; [|split; [|split]].
  - intros before ev after Ht.
    refine (run_justified typed_after _ h w _ _ _ _ test_typed_after Ht).
    intros ? ? ?. unfold typed_after, typing, keystroke.
    repeat split; intros; discriminate.
  - intros s e. rewrite cleared_then_typed. apply string_app_nil_r.
  - intros fixture active st1 st2 rt all.
    rewrite !run_from_start, (after_replace_all_searchterm fixture active st1 st2 rt all).
    reflexivity.
  - intros fixture active ctl. rewrite submitted_from_start. reflexivity.
Qed.

(** ** Entering and leaving the blocks *)

Lemma entered_app cm t1 t2 : entered cm (t1 ++ t2) = (entered cm t1 + entered cm t2)%nat.
Proof. unfold entered. rewrite List.filter_app, length_app. reflexivity. Qed.

Lemma exited_app cm t1 t2 : exited cm (t1 ++ t2) = (exited cm t1 + exited cm t2)%nat.
Proof. unfold exited. rewrite List.filter_app, length_app. reflexivity. Qed.

Lemma entered_cons cm ev t : entered cm (ev :: t) = (entered cm [ev] + entered cm t)%nat.
Proof. apply (entered_app cm [ev] t). Qed.

Lemma exited_cons cm ev t : exited cm (ev :: t) = (exited cm [ev] + exited cm t)%nat.
Proof. apply (exited_app cm [ev] t). Qed.

(** A program that enters and leaves blocks by [with] only leaves every
    block it entered, however the run ends. *)
Lemma exec_balanced p t o :
  exec p t o -> blocks_by_with p -> forall cm, entered cm t = exited cm t.
Proof.
  induction 1 as [ | c k e | c k v t o _ IH | a k t o _ IH | a b k Hne
                 | cm' body k e | cm' body k v tb ob e _ IHb
                 | cm' body k v tb x tk o _ IHb _ IHk
                 | cm' body k v tb ob x _ IHb Hob ]; intros Hp cm; simpl in Hp.
  - reflexivity.
  - destruct Hp as [Hc _]. destruct c; try contradiction; reflexivity.
  - destruct Hp as [Hc Hk]. rewrite entered_cons, exited_cons, (IH (Hk v)).
    destruct c; try contradiction; reflexivity.
  - rewrite entered_cons, exited_cons, (IH Hp). reflexivity.
  - reflexivity.
  - reflexivity.
  - destruct Hp as [Hb _].
    rewrite entered_cons, exited_cons, entered_app, exited_app, (IHb (Hb v)).
    unfold entered, exited. simpl. destruct (bool_decide (cm' = cm)); simpl; lia.
  - destruct Hp as [Hb Hk].
    rewrite entered_cons, exited_cons, entered_app, exited_app, (IHb (Hb v)).
    rewrite (entered_cons _ _ tk), (exited_cons _ _ tk), (IHk Hk).
    unfold entered, exited. simpl. destruct (bool_decide (cm' = cm)); simpl; lia.
  - destruct Hp as [Hb _].
    rewrite entered_cons, exited_cons, entered_app, exited_app, (IHb (Hb v)).
    unfold entered, exited. simpl. destruct (bool_decide (cm' = cm)); simpl; lia.
Qed.

Lemma test_blocks_by_with : blocks_by_with test_tdf39959_find_replace_all_sheets.
Proof. simpl. intuition. Qed.

Lemma exec_Call_inv c k t o :
  exec (Call c k) t o ->
  (exists e, t = [Called c (inl e)]) \/
  (exists v t', t = Called c (inr v) :: t' /\ exec (k v) t' o).
Proof. inversion 1; subst; eauto. Qed.

Lemma exec_With_last cm body t o :
  exec (With cm body Return) t o ->
  (exists e, t = [Called (enter cm) (inl e)]) \/
  (exists v tb ob x,
     t = Called (enter cm) (inr v) :: tb ++ [Called (exit cm) x] /\ exec (body v) tb ob).
Proof.
  inversion 1; subst; eauto 10.
  match goal with H : exec Return _ _ |- _ => inversion H; subst end. eauto 10.
Qed.

(** Every call of a run is one the program can make. *)
Lemma exec_calls (Q : call -> Prop) p t o :
  exec p t o -> calls_satisfy Q p -> forall c r, In (Called c r) t -> Q c.
Proof.
  induction 1 as [ | c k e | c k v t o _ IH | a k t o _ IH | a b k Hne
                 | cm body k e | cm body k v tb ob e _ IHb
                 | cm body k v tb x tk o _ IHb _ IHk
                 | cm body k v tb ob x _ IHb Hob ]; intros Hq c' r' Hin; simpl in Hq.
  - destruct Hin.
  - destruct Hq as [Hc _]. destruct Hin as [[= <- <-] | []]. exact Hc.
  - destruct Hq as [Hc Hk]. destruct Hin as [[= <- <-] | Hin]; [exact Hc | eauto].
  - destruct Hin as [[=] | Hin]. eauto.
  - destruct Hin as [[=] | []].
  - destruct Hq as [He _]. destruct Hin as [[= <- <-] | []]. exact He.
  - destruct Hq as (He & Hx & Hb & Hk).
    destruct Hin as [[= <- <-] | Hin]; [exact He|].
    apply in_app_or in Hin as [Hin | [[= <- <-] | []]]; [eauto | exact Hx].
  - destruct Hq as (He & Hx & Hb & Hk).
    destruct Hin as [[= <- <-] | Hin]; [exact He|].
    apply in_app_or in Hin as [Hin | [[= <- <-] | Hin]]; [eauto | exact Hx | eauto].
  - destruct Hq as (He & Hx & Hb & Hk).
    destruct Hin as [[= <- <-] | Hin]; [exact He|].
    apply in_app_or in Hin as [Hin | [[= <- <-] | []]]; [eauto | exact Hx].
Qed.

(** ** The objects the script passes on, and where its statements stand *)

Lemma test_handed_on : safe handed_on test_tdf39959_find_replace_all_sheets [].
Proof.
  unfold test_tdf39959_find_replace_all_sheets.
  walk ltac:(unfold handed_on, returned, script_actions;
             first [ exact I
                   | split; reflexivity
                   | simpl; solve [eauto 40]
                   | left; split; [reflexivity | simpl; solve [eauto 40]]
                   | right; split; simpl; solve [eauto 40]
                   | solve [eexists _, _; split; simpl; eauto 40]
                   | solve [eexists _, _, _, _; simpl; eauto 40]
                   | solve [eexists; simpl; eauto 40] ]).
Qed.

Lemma test_in_scope : safe in_scope test_tdf39959_find_replace_all_sheets [].
Proof.
  unfold test_tdf39959_find_replace_all_sheets.
  walk ltac:(unfold in_scope;
             first [ exact I
                   | split; reflexivity
                   | split; [ solve [eexists; simpl; eauto 40]
                            | intros ? ? Hin; simpl in Hin; intuition discriminate ] ]).
Qed.

Lemma exec_document_closed t o (u d : value) :
  exec test_tdf39959_find_replace_all_sheets t o ->
  In (Called (enter (load_file u)) (inr d)) t ->
  returned (get_url_for_data_file "tdf39959.ods") u t /\
  exists r, last t = Some (Called (exit (load_file u)) r).
Proof.
  unfold test_tdf39959_find_replace_all_sheets. intros He Hin.
  apply exec_Call_inv in He as [[e ->] | (v & t' & -> & He)].
  { destruct Hin as [[=] | []]. }
  apply exec_With_last in He as [[e ->] | (d' & tb & ob & x & -> & Hb)].
  { simpl in Hin. intuition discriminate. }
  assert (Hq : forall c r, In (Called c r) tb -> loads_nothing c).
  { apply (exec_calls loads_nothing _ _ _ Hb). simpl.
    repeat first [ exact I | split | intro ]. }
  destruct Hin as [[=] | [[= <- <-] | Hin]].
  - split; [left; reflexivity|]. exists x.
    rewrite !app_comm_cons. apply last_snoc.
  - apply in_app_or in Hin as [Hin | [[=] | []]].
    destruct (Hq _ _ Hin).
Qed.

Lemma exec_passed_reads t :
  exec test_tdf39959_find_replace_all_sheets t Passed ->
  exists url d c1 c2 c3,
    returned (get_url_for_data_file "tdf39959.ods") url t /\
    returned (enter (load_file url)) d t /\
    cell_lookups t = [(d, (1, 0, 0), c1); (d, (1, 0, 2), c2); (d, (1, 0, 0), c3)] /\
    cell_reads t = [(c1, Str "bbb "); (c2, Str "abc"); (c3, Str "asdf ")].
Proof.
  unfold test_tdf39959_find_replace_all_sheets. intros He. inv_passed.
  eexists _, _, _, _, _. unfold returned.
  split; [left; reflexivity|]. split; [right; left; reflexivity|].
  split; reflexivity.
Qed.

(** ** Properties of every run of the test *)

(** X1: in every run of the test, whatever the collaborators answer or
    raise and however the run ends, the [__exit__] of a [with] block is
    called as often as its [__enter__] returned: the document and the
    dialog are left whenever they were entered. *)
Theorem every_block_left {W : Type} (h : handler W) (w : W) (cm : context_manager) :
  entered cm (trace (run h test_tdf39959_find_replace_all_sheets w)) =
  exited cm (trace (run h test_tdf39959_find_replace_all_sheets w)).
Proof.
  apply (exec_balanced _ _ _ (run_exec h test_tdf39959_find_replace_all_sheets w)).
  exact test_blocks_by_with.
Qed.

(** X2: in every run in which [load_file] handed out a document, the url
    it was given is the one [get_url_for_data_file] returned for
    tdf39959.ods, and the last thing the run does is leave the [with]
    block of that document, also after a failed assertion or an
    exception. *)
Theorem document_closed_last {W : Type} (h : handler W) (w : W) (u d : value) :
  In (Called (enter (load_file u)) (inr d))
     (trace (run h test_tdf39959_find_replace_all_sheets w)) ->
  returned (get_url_for_data_file "tdf39959.ods") u
           (trace (run h test_tdf39959_find_replace_all_sheets w)) /\
  exists r, last (trace (run h test_tdf39959_find_replace_all_sheets w)) =
            Some (Called (exit (load_file u)) r).
Proof.
  apply exec_document_closed with (o := verdict (run h test_tdf39959_find_replace_all_sheets w)).
  apply run_exec.
Qed.

Lemma document_closed_last_witness :
  returned (get_url_for_data_file "tdf39959.ods") (Str "file:///data/tdf39959.ods")
           (trace (run Calc.handle test_tdf39959_find_replace_all_sheets used_start)) /\
  exists r, last (trace (run Calc.handle test_tdf39959_find_replace_all_sheets used_start)) =
            Some (Called (exit (load_file (Str "file:///data/tdf39959.ods"))) r).
Proof.
  apply (document_closed_last Calc.handle used_start (Str "file:///data/tdf39959.ods")
           (Obj (Component "file:///data/tdf39959.ods"))).
  vm_compute. right. left. reflexivity.
Defined.

(** X5: in every run, every object the script passes on is one it was
    handed before ([handed_on]): [load_file] gets the url
    [get_url_for_data_file] returned, "grid_window" is asked of the window
    [getTopFocusWindow] returned, the four controls are asked of the dialog
    the [with] of line 28 handed out, every action goes to an object
    [getChild] returned and is one of the six of lines 30 to 38 with their
    parameters, every cell is looked up in the document the [with] of line
    18 handed out, and [getString] reads a cell that was looked up. *)
Theorem handles_handed_on {W : Type} (h : handler W) (w : W)
    (before after : list event) (ev : event) :
  trace (run h test_tdf39959_find_replace_all_sheets w) = before ++ ev :: after ->
  handed_on before ev.
Proof.
  intros Ht.
  exact (run_justified handed_on ltac:(intros; exact I) h w _ _ _ _ test_handed_on Ht).
Qed.

Lemma handles_handed_on_witness :
  handed_on (take 14 (trace example_run))
            (click (Obj (Window ["SearchDialog"; "replaceall"])) (inr VNone)).
Proof.
  apply (handles_handed_on Calc.handle example_start _ (drop 15 (trace example_run))).
  vm_compute. reflexivity.
Defined.

(** X6: a run that passes looked up exactly three cells, all in the
    document [load_file] handed out for the url of tdf39959.ods, with the
    arguments (1, 0, 0), (1, 0, 2) and (1, 0, 0) in this order, and read
    exactly these three cells, getting "bbb ", "abc" and "asdf ". *)
Theorem passing_run_reads {W : Type} (h : handler W) (w : W) :
  verdict (run h test_tdf39959_find_replace_all_sheets w) = Passed ->
  exists url d c1 c2 c3,
    returned (get_url_for_data_file "tdf39959.ods") url
             (trace (run h test_tdf39959_find_replace_all_sheets w)) /\
    returned (enter (load_file url)) d
             (trace (run h test_tdf39959_find_replace_all_sheets w)) /\
    cell_lookups (trace (run h test_tdf39959_find_replace_all_sheets w)) =
      [(d, (1, 0, 0), c1); (d, (1, 0, 2), c2); (d, (1, 0, 0), c3)] /\
    cell_reads (trace (run h test_tdf39959_find_replace_all_sheets w)) =
      [(c1, Str "bbb "); (c2, Str "abc"); (c3, Str "asdf ")].
Proof.
  intros Hv. apply exec_passed_reads. rewrite <- Hv. apply run_exec.
Qed.

Lemma passing_run_reads_witness :
  exists url d c1 c2 c3,
    returned (get_url_for_data_file "tdf39959.ods") url (trace example_run) /\
    returned (enter (load_file url)) d (trace example_run) /\
    cell_lookups (trace example_run) =
      [(d, (1, 0, 0), c1); (d, (1, 0, 2), c2); (d, (1, 0, 0), c3)] /\
    cell_reads (trace example_run) =
      [(c1, Str "bbb "); (c2, Str "abc"); (c3, Str "asdf ")].
Proof.
  apply (passing_run_reads Calc.handle example_start).
  vm_compute. reflexivity.
Defined.

(** X7: in every run, an action is sent to a control only while the block
    of the Find & Replace dialog is open (entered once, not yet left), and
    a cell is looked up or read, and [.uno:Undo] dispatched, only after
    that block was left with its [__exit__] returning, and before the
    block of the document is left. *)
Theorem statements_in_scope {W : Type} (h : handler W) (w : W)
    (before after : list event) (ev : event) :
  trace (run h test_tdf39959_find_replace_all_sheets w) = before ++ ev :: after ->
  in_scope before ev.
Proof.
  intros Ht.
  exact (run_justified in_scope ltac:(intros; exact I) h w _ _ _ _ test_in_scope Ht).
Qed.

Lemma statements_in_scope_witness :
  in_scope (take 16 (trace example_run))
           (Called (get_cell_by_position (Obj (Component "file:///data/tdf39959.ods")) 1 0 0)
                   (inr (Obj (CellRef 1 0 0)))).
Proof.
  apply (statements_in_scope Calc.handle example_start _ (drop 17 (trace example_run))).
  vm_compute. reflexivity.
Defined.

(** A program that enters and leaves blocks by [with] only leaves a block
    only after it has entered it. *)
Lemma exec_exit_entered p t o :
  exec p t o -> blocks_by_with p -> forall h, justified exit_entered h t.
Proof.
  induction 1 as [ | c k e | c k v t o _ IH | a k t o _ IH | a b k Hne
                 | cm body k e | cm body k v tb ob e _ IHb
                 | cm body k v tb x tk o _ IHb _ IHk
                 | cm body k v tb ob x _ IHb Hob ]; intros Hp h; simpl in Hp.
  - exact I.
  - destruct Hp as [Hc _]. split; [|exact I]. destruct c; try contradiction; exact I.
  - destruct Hp as [Hc Hk]. split; [|apply IH, Hk]. destruct c; try contradiction; exact I.
  - split; [exact I | apply IH, Hp].
  - split; exact I.
  - split; exact I.
  - destruct Hp as [Hb _]. split; [exact I|].
    apply justified_app. split; [apply IHb, Hb|]. split; [|exact I].
    exists v. rewrite <- app_assoc. apply in_or_app. right. left. reflexivity.
  - destruct Hp as [Hb Hk]. split; [exact I|].
    apply justified_app. split; [apply IHb, Hb|]. split.
    + exists v. rewrite <- app_assoc. apply in_or_app. right. left. reflexivity.
    + apply IHk, Hk.
  - destruct Hp as [Hb _]. split; [exact I|].
    apply justified_app. split; [apply IHb, Hb|]. split; [|exact I].
    exists v. rewrite <- app_assoc. apply in_or_app. right. left. reflexivity.
Qed.

(** ** The calls of the script *)

(** C10: every call of every run is one of the calls of the script
    ([script_call]): the data file tdf39959.ods is located and loaded once
    and one dialog is opened, with .uno:SearchDialog; the helpers
    select_pos, enter_text_to_cell, type_text and get_state_as_dict are
    never called; a cell is only looked up on sheet 1 and only read, with
    getString, right after; the only command dispatched is .uno:Undo, and
    the only actions are TYPE on the two text fields and CLICK on
    "allsheets" and "replaceall"; a block that is left is one of the two
    that were entered. On the application of [Calc], a call of the run
    that changes the loaded document is the dispatch of .uno:Undo or the
    click on "replaceall", or it loads or closes the document. *)
Theorem only_script_calls {W : Type} (h : handler W) (w : W)
    (before after : list event) (ev : event) :
  trace (run h test_tdf39959_find_replace_all_sheets w) = before ++ ev :: after ->
  script_call before ev /\
  exit_entered before ev /\
  (forall c r (a : Calc.state),
     ev = Called c r ->
     Calc.document (snd (Calc.handle c a)) <> Calc.document a ->
     mutation c).
Proof.
  intros Ht.
  assert (Hs : script_call before ev).
  { exact (run_justified script_call ltac:(intros; exact I) h w _ _ _ _ test_script_call Ht). }
  split; [exact Hs|]. split.
  - refine (justified_split exit_entered _ before ev after _ Ht).
    apply (exec_exit_entered _ _ _ (run_exec h test_tdf39959_find_replace_all_sheets w)).
    exact test_blocks_by_with.
  - intros c r a -> Hd. apply handle_document in Hd. unfold mutation.
    destruct c as [ | [url|] | [url|] | | | o action params | | | cmd | | | | ];
      simpl in Hd; try contradiction.
    + right. right. exists url. left. reflexivity.
    + right. right. exists url. right. reflexivity.
    + destruct o as [| |[| [|w0 [|id [|]]] |]]; try contradiction.
      destruct Hd as [-> ->]. simpl in Hs.
      destruct Hs as [[Ha _] | (_ & -> & _)]; [discriminate|].
      right. left. exists w0. reflexivity.
    + left. rewrite Hd. reflexivity.
Qed.

Lemma only_script_calls_witness :
  script_call (take 14 (trace example_run))
              (click (Obj (Window ["SearchDialog"; "replaceall"])) (inr VNone)) /\
  exit_entered (take 14 (trace example_run))
               (click (Obj (Window ["SearchDialog"; "replaceall"])) (inr VNone)) /\
  (forall c r (a : Calc.state),
     click (Obj (Window ["SearchDialog"; "replaceall"])) (inr VNone) = Called c r ->
     Calc.document (snd (Calc.handle c a)) <> Calc.document a ->
     mutation c).
Proof.
  apply (only_script_calls Calc.handle example_start _ (drop 15 (trace example_run))).
  vm_compute. reflexivity.
Defined.

(** ** A run in which no call raises *)

Ltac find_raise :=
  first [ left; reflexivity
        | right; find_raise
        | apply in_or_app; right; find_raise ].

(** Closes a case in which a call raised, or a block was left by a
    failure that did not happen. *)
Ltac prune :=
  try solve [ match goal with
              | Hnr : ~ raised _ |- _ => exfalso; apply Hnr; do 2 eexists; find_raise
              end
            | match goal with
              | H : Passed <> Passed |- _ => contradiction H; reflexivity
              end ].

Ltac inv_no_raise :=
  repeat (match goal with
          | H : exec Return _ _ |- _ => inversion H; subst; clear H
          | H : exec (Call _ _) _ _ |- _ => inversion H; subst; clear H
          | H : exec (AssertEqual _ _ _) _ _ |- _ => inversion H; subst; clear H
          | H : exec (With _ _ _) _ _ |- _ => inversion H; subst; clear H
          end; prune).

Ltac inspected_tac := split; reflexivity.

Lemma exec_no_raise t o :
  exec test_tdf39959_find_replace_all_sheets t o ->
  ~ raised t ->
  exists url d,
    returned (get_url_for_data_file "tdf39959.ods") url t /\
    returned (enter (load_file url)) d t /\
    ends_by_checks d t o.
Proof.
  unfold test_tdf39959_find_replace_all_sheets. intros He Hnr.
  inv_no_raise.
  all: eexists _, _; (split; [left; reflexivity|]); (split; [right; left; reflexivity|]).
  all: unfold ends_by_checks.
  all: first
    [ left; eexists _, _; split; [inspected_tac|];
      split; [assumption|]; split; [reflexivity | undone_tac]
    | right; left; eexists _, _, _; split; [inspected_tac|];
      split; [assumption|]; split; [reflexivity | undone_tac]
    | right; right; eexists _, _, _, _; split; [inspected_tac|];
      split; [undone_tac|]; right; split; [assumption | reflexivity]
    | right; right; eexists _, _, _, _; split; [inspected_tac|];
      split; [undone_tac|]; left; split; reflexivity ].
Qed.

(** Behind the method lookup, a call on a value that is no object raises
    the script's [AttributeError], whatever the collaborators are. *)
Lemma run_method_lookup {W : Type} (h : handler W) (p : prog) :
  forall w, Forall raised_by_script (trace (run (method_lookup h) p w)).
Proof.
  assert (Hc : forall c w, raised_by_script (Called c (method_lookup h c w).1)).
  { intros c w e He. unfold method_lookup. rewrite He. reflexivity. }
  induction p as [|c k IH|a b k IH|cm body IHb k IHk]; intros w; simpl.
  - constructor.
  - pose proof (Hc c w) as H1.
    destruct (method_lookup h c w) as [[e|v] w1]; simpl in *.
    + repeat constructor. exact H1.
    + constructor; [exact H1 | apply IH].
  - destruct (decide (a = b)); simpl; repeat constructor. apply IH.
  - pose proof (Hc (enter cm) w) as H1.
    destruct (method_lookup h (enter cm) w) as [[e|v] w1]; simpl in *.
    { repeat constructor. exact H1. }
    pose proof (Hc (exit cm) (world (run (method_lookup h) (body v) w1))) as H2.
    destruct (method_lookup h (exit cm) (world (run (method_lookup h) (body v) w1)))
      as [[e|x] w2]; simpl in *.
    { constructor; [exact H1|]. apply Forall_app. split; [apply IHb | repeat constructor; exact H2]. }
    destruct (verdict (run (method_lookup h) (body v) w1)); simpl;
      (constructor; [exact H1|]); apply Forall_app; (split; [apply IHb|]).
    + constructor; [exact H2 | apply IHk].
    + repeat constructor; exact H2.
    + repeat constructor; exact H2.
Qed.

(** ** Failures *)

(** C7, amended: take a run of the test, with the method lookup of Python
    between the script and its collaborators. If no call raised, the run
    read the cells looked up with (1, 0, 0), (1, 0, 2) and, after
    .uno:Undo, (1, 0, 0) in the loaded document, up to the first string
    that is not "bbb ", "abc", "asdf " in turn: there the test fails with
    that assertion and nothing more is read; it passes when all three are
    as expected ([ends_by_checks]). If a call raised, the test ends with an
    exception that a call raised, so it neither passes nor fails by an
    assertion: nothing is caught. And a method called on a value that is
    no object is such a call: there the script raises [AttributeError]
    itself. *)
Theorem fails_by_assertion_only {W : Type} (h : handler W) (w : W) :
  (~ raised (trace (run (method_lookup h) test_tdf39959_find_replace_all_sheets w)) ->
   exists url d,
     returned (get_url_for_data_file "tdf39959.ods") url
              (trace (run (method_lookup h) test_tdf39959_find_replace_all_sheets w)) /\
     returned (enter (load_file url)) d
              (trace (run (method_lookup h) test_tdf39959_find_replace_all_sheets w)) /\
     ends_by_checks d
       (trace (run (method_lookup h) test_tdf39959_find_replace_all_sheets w))
       (verdict (run (method_lookup h) test_tdf39959_find_replace_all_sheets w))) /\
  (raised (trace (run (method_lookup h) test_tdf39959_find_replace_all_sheets w)) ->
   exists c e,
     In (Called c (inl e))
        (trace (run (method_lookup h) test_tdf39959_find_replace_all_sheets w)) /\
     verdict (run (method_lookup h) test_tdf39959_find_replace_all_sheets w) = Errored e) /\
  (forall c r v method,
     In (Called c r) (trace (run (method_lookup h) test_tdf39959_find_replace_all_sheets w)) ->
     receiver c = Some (v, method) ->
     (forall o, v <> Obj o) ->
     r = inl (AttributeError v method)).
Proof.
  pose proof (run_exec (method_lookup h) test_tdf39959_find_replace_all_sheets w) as He.
  split; [|split].
  - intros Hnr. exact (exec_no_raise _ _ He Hnr).
  - intros Hr. pose proof (exec_verdict _ _ _ He) as Hv.
    destruct (verdict (run (method_lookup h) test_tdf39959_find_replace_all_sheets w))
      as [|a b|e].
    + destruct Hv as [Hnr _]. contradiction.
    + destruct Hv as (_ & _ & Hnr). contradiction.
    + destruct Hv as [c Hin]. exists c, e. split; [exact Hin | reflexivity].
  - intros c r v method Hin Hrec Hno.
    pose proof (run_method_lookup h test_tdf39959_find_replace_all_sheets w) as Hall.
    rewrite List.Forall_forall in Hall. specialize (Hall _ Hin). simpl in Hall.
    apply Hall. unfold script_error. rewrite Hrec.
    destruct v as [| |o]; [reflexivity | reflexivity | destruct (Hno o eq_refl)].
Qed.

(** C7 as stated fails. With no window in focus, [getTopFocusWindow]
    returns [None] and the script itself raises [AttributeError] at
    [getChild]: the test ends in an error although no collaborator raised
    and no assertion was evaluated. And when closing the document raises
    after the first assertion has failed, the test ends with the exception
    of the closing, not with the failed assertion. *)
Lemma ends_without_failed_assertion :
  (trace (run (method_lookup no_window) test_tdf39959_find_replace_all_sheets example_start) =
     [ Called (get_url_for_data_file "tdf39959.ods") (inr (Str "file:///data/tdf39959.ods"));
       Called (enter (load_file (Str "file:///data/tdf39959.ods")))
              (inr (Obj (Component "file:///data/tdf39959.ods")));
       Called getTopFocusWindow (inr VNone);
       Called (getChild VNone "grid_window") (inl (AttributeError VNone "getChild"));
       Called (exit (load_file (Str "file:///data/tdf39959.ods"))) (inr VNone) ] /\
   verdict (run (method_lookup no_window) test_tdf39959_find_replace_all_sheets example_start) =
     Errored (AttributeError VNone "getChild")) /\
  (refuted (trace (run (method_lookup closing_fails)
                       test_tdf39959_find_replace_all_sheets empty_start)) /\
   verdict (run (method_lookup closing_fails)
                test_tdf39959_find_replace_all_sheets empty_start) =
     Errored (Exception "close")).
Proof.
  split; [split; vm_compute; reflexivity | split].
  - exists (Str ""), (Str "bbb "). split; [vm_compute; tauto | discriminate].
  - vm_compute. reflexivity.
Qed.

(** ** One statement after the other *)

Lemma statements_app t1 t2 : statements (t1 ++ t2) = statements t1 ++ statements t2.
Proof. apply omap_app. Qed.

Lemma next_statement_prefix t :
  forall h,
    justified next_statement h t ->
    statements h = take (length (statements h)) script_statements ->
    statements (h ++ t) = take (length (statements (h ++ t))) script_statements.
Proof.
  induction t as [|ev t IH]; intros h Hj Hh.
  - rewrite app_nil_r. exact Hh.
  - destruct Hj as [Hev Hj]. rewrite cons_middle, app_assoc.
    apply IH; [exact Hj|]. rewrite statements_app. unfold statements at 2 4. simpl.
    destruct (statement_of ev) as [s|] eqn:Hs; simpl.
    + specialize (Hev s Hs). rewrite length_app. simpl.
      rewrite Nat.add_1_r. erewrite take_S_r by exact Hev. congruence.
    + rewrite !app_nil_r. exact Hh.
Qed.

Lemma test_next_statement : safe next_statement test_tdf39959_find_replace_all_sheets [].
Proof.
  unfold test_tdf39959_find_replace_all_sheets.
  walk ltac:(intros ? [= <-]; reflexivity).
Qed.

(** Whatever the collaborators answer, the statements a run executes are
    the first ones of the text. *)
Lemma exec_statements t o :
  exec test_tdf39959_find_replace_all_sheets t o ->
  statements t = take (length (statements t)) script_statements.
Proof.
  intros He.
  assert (Hj : justified next_statement [] t).
  { eapply safe_justified; [ | exact He | exact test_next_statement ]. intros ? ? ? ? [=]. }
  exact (next_statement_prefix t [] Hj eq_refl).
Qed.

Lemma run_statement {W : Type} (h : handler W) (w : W) (n : nat) (s : call + value) :
  statements (trace (run h test_tdf39959_find_replace_all_sheets w)) !! n = Some s ->
  script_statements !! n = Some s.
Proof.
  pose proof (exec_statements _ _ (run_exec h test_tdf39959_find_replace_all_sheets w)) as Hs.
  revert Hs. generalize (statements (trace (run h test_tdf39959_find_replace_all_sheets w))).
  intros l Hl Hn. rewrite Hl in Hn. apply lookup_take_Some in Hn. tauto.
Qed.

(** ** Determinism *)

(** C8: two runs of the test, against any collaborators. If the
    collaborators gave the same answers in the same order, the runs made
    the same calls with the same arguments, evaluated the same assertions
    and ended the same way. And the script does not branch: whatever the
    answers, the n-th statement a run executes is the n-th statement of
    the text ([script_statements]), so that two runs execute the same
    statements as far as both get. *)
Theorem same_answers_same_run {W1 W2 : Type} (h1 : handler W1) (h2 : handler W2)
    (w1 : W1) (w2 : W2) :
  (answers (trace (run h1 test_tdf39959_find_replace_all_sheets w1)) =
   answers (trace (run h2 test_tdf39959_find_replace_all_sheets w2)) ->
   trace (run h1 test_tdf39959_find_replace_all_sheets w1) =
   trace (run h2 test_tdf39959_find_replace_all_sheets w2) /\
   verdict (run h1 test_tdf39959_find_replace_all_sheets w1) =
   verdict (run h2 test_tdf39959_find_replace_all_sheets w2)) /\
  (forall n s1,
     statements (trace (run h1 test_tdf39959_find_replace_all_sheets w1)) !! n = Some s1 ->
     script_statements !! n = Some s1 /\
     forall s2,
       statements (trace (run h2 test_tdf39959_find_replace_all_sheets w2)) !! n = Some s2 ->
       s1 = s2).
Proof.
  split.
  - intros Ha.
    destruct (exec_deterministic _ _ _
                (run_exec h1 test_tdf39959_find_replace_all_sheets w1) _ _ [] []
                (run_exec h2 test_tdf39959_find_replace_all_sheets w2)) as (Ht & Ho & _).
    + rewrite !app_nil_r. exact Ha.
    + auto.
  - intros n s1 H1. pose proof (run_statement h1 w1 n s1 H1) as Hs1.
    split; [exact Hs1|]. intros s2 H2.
    pose proof (run_statement h2 w2 n s2 H2) as Hs2. congruence.
Qed.

Lemma same_answers_same_run_witness :
  trace (run Calc.handle test_tdf39959_find_replace_all_sheets example_start) =
  trace (run Calc.handle test_tdf39959_find_replace_all_sheets other_start) /\
  verdict (run Calc.handle test_tdf39959_find_replace_all_sheets example_start) =
  verdict (run Calc.handle test_tdf39959_find_replace_all_sheets other_start).
Proof.
  apply (proj1 (same_answers_same_run Calc.handle Calc.handle example_start other_start)).
  vm_compute. reflexivity.
Defined.

(** ** What is typed into the dialog *)



